(** * nuxt-og-image: module setup and the lazily initialised rendering bindings

    A shallow embedding of
    - [src/runtime/core/renderers/satori/instances.ts] (module [Instances]):
      the three memo cells [resvgInstance], [satoriInstance], [sharpInstance]
      and the async accessors [useResvg], [useSatori], [useSharp];
    - the [setup] function of [src/module.ts] (module [Current]) and of its
      earlier revision (module [Earlier]). *)

From Stdlib Require Import String Ascii Bool Arith NArith Lia DecimalString.
From stdpp Require Import base option list strings.

Local Open Scope string_scope.

(** ** Promises *)

(** The outcome of a promise once it has settled. *)
Inductive Settled (A : Type) : Type :=
| Fulfilled (a : A)
| Rejected (e : string).
Arguments Fulfilled {A} a.
Arguments Rejected {A} e.

Module Instances.

(** The three bindings kept alive by [instances.ts]. *)
Inductive EngineKind : Type := Resvg | Satori | Sharp.

#[global] Instance EngineKind_eq_dec : EqDecision EngineKind.
Proof. solve_decision. Defined.

(** Engine handles ([Resvg] class, [satori] function, [sharp] function) are
    opaque; they are told apart by an identifier. *)
Definition Handle := nat.

(** The default export of a [#nuxt-og-image/bindings/*] module.  For resvg and
    satori it is [{ initWasmPromise, Resvg }] resp. [{ initWasmPromise, satori }];
    for sharp it is the sharp function itself, whose [initWasmPromise] field is
    never read by [useSharp]. *)
Record Binding : Type := {
  initWasmPromise : Settled unit;
  engine : Handle
}.

(** [useResvg] and [useSatori] have the line [await instance.initWasmPromise];
    [useSharp] has not. *)
Definition awaitsInitWasm (k : EngineKind) : bool :=
  match k with
  | Resvg | Satori => true
  | Sharp => false
  end.

(** The module-level memo cells. *)
Record Cells : Type := {
  resvgInstance : option Binding;
  satoriInstance : option Binding;
  sharpInstance : option Binding
}.

Definition instance (k : EngineKind) (c : Cells) : option Binding :=
  match k with
  | Resvg => resvgInstance c
  | Satori => satoriInstance c
  | Sharp => sharpInstance c
  end.

Definition setInstance (k : EngineKind) (b : Binding) (c : Cells) : Cells :=
  match k with
  | Resvg => {| resvgInstance := Some b; satoriInstance := satoriInstance c;
                sharpInstance := sharpInstance c |}
  | Satori => {| resvgInstance := resvgInstance c; satoriInstance := Some b;
                 sharpInstance := sharpInstance c |}
  | Sharp => {| resvgInstance := resvgInstance c; satoriInstance := satoriInstance c;
                sharpInstance := Some b |}
  end.

(** Where a running call of [useResvg]/[useSatori]/[useSharp] is suspended. *)
Inductive Cont : Type :=
| AwaitImport (n : nat)            (* at [await import(...)], the n-th import of its kind *)
| AwaitInit (p : Settled unit)     (* at [await instance.initWasmPromise] *)
| Returned (r : Settled Handle).   (* the async function has settled *)

(** The process: the memo cells, the log of [import()] expressions evaluated so
    far, and every call made so far with its continuation. *)
Record Process : Type := {
  cells : Cells;
  imported : list EngineKind;
  calls : list (EngineKind * Cont)
}.

Definition start : Process :=
  {| cells := {| resvgInstance := None; satoriInstance := None; sharpInstance := None |};
     imported := [];
     calls := [] |}.

Definition importCount (k : EngineKind) (p : Process) : nat :=
  length (filter (fun k' => k' = k) (imported p)).

(** What the event loop does next: a caller invokes an accessor, or the call
    numbered [i] is resumed because the promise it awaits has settled. *)
Inductive Event : Type :=
| Call (k : EngineKind)
| Resume (i : nat).

(** [return instance!.Resvg]: the cell is read again when the call resumes. *)
Definition readEngine (k : EngineKind) (c : Cells) : Settled Handle :=
  match instance k c with
  | Some b => Fulfilled (engine b)
  | None => Rejected "TypeError"
  end.

(** The code that follows the assignment [instance = b], up to the next
    suspension point. *)
Definition afterAssign (k : EngineKind) (b : Binding) : Cont :=
  if awaitsInitWasm k then AwaitInit (initWasmPromise b)
  else Returned (Fulfilled (engine b)).

Section Host.

(** The host's module loader: the outcome of the [n]-th evaluation of
    [import('#nuxt-og-image/bindings/<kind>').then(m => m.default)]. *)
Variable importBinding : EngineKind -> nat -> Settled Binding.

(** [instance = instance || await import(...)], run synchronously up to the
    first [await]. *)
Definition invoke (k : EngineKind) (p : Process) : Process :=
  match instance k (cells p) with
  | Some b =>
      {| cells := setInstance k b (cells p);
         imported := imported p;
         calls := calls p ++ [(k, afterAssign k b)] |}
  | None =>
      {| cells := cells p;
         imported := imported p ++ [k];
         calls := calls p ++ [(k, AwaitImport (importCount k p))] |}
  end.

Definition resume (i : nat) (p : Process) : Process :=
  match calls p !! i with
  | Some (k, AwaitImport n) =>
      match importBinding k n with
      | Fulfilled b =>
          {| cells := setInstance k b (cells p);
             imported := imported p;
             calls := <[i := (k, afterAssign k b)]> (calls p) |}
      | Rejected e =>
          {| cells := cells p;
             imported := imported p;
             calls := <[i := (k, Returned (Rejected e))]> (calls p) |}
      end
  | Some (k, AwaitInit (Fulfilled _)) =>
      {| cells := cells p;
         imported := imported p;
         calls := <[i := (k, Returned (readEngine k (cells p)))]> (calls p) |}
  | Some (k, AwaitInit (Rejected e)) =>
      {| cells := cells p;
         imported := imported p;
         calls := <[i := (k, Returned (Rejected e))]> (calls p) |}
  | Some (_, Returned _) | None => p
  end.

Definition step (ev : Event) (p : Process) : Process :=
  match ev with
  | Call k => invoke k p
  | Resume i => resume i p
  end.

Definition run (evs : list Event) (p : Process) : Process :=
  fold_left (fun q ev => step ev q) evs p.

(** A call that nobody interleaves with: it is invoked and resumed until it
    settles (there are at most two suspension points). *)
Definition use (k : EngineKind) (p : Process) : Process :=
  let i := length (calls p) in
  run [Call k; Resume i; Resume i] p.

Definition useResvg : Process -> Process := use Resvg.
Definition useSatori : Process -> Process := use Satori.
Definition useSharp : Process -> Process := use Sharp.

(** The outcome of the call numbered [i], once it has settled. *)
Definition outcome (i : nat) (p : Process) : option (Settled Handle) :=
  match calls p !! i with
  | Some (_, Returned r) => Some r
  | _ => None
  end.

End Host.

(** The state in which kind [k] has been initialised with binding [b]: the cell
    holds [b], [count] imports of kind [k] have been evaluated and none is in
    flight, and every call of kind [k] numbered [base] or later waits for
    [b]'s wasm initialisation or has returned [b]'s engine. *)
Record Memoised (k : EngineKind) (b : Binding) (base count : nat) (p : Process)
  : Prop := {
  memo_cell : instance k (cells p) = Some b;
  memo_count : importCount k p = count;
  memo_idle : forall i n, calls p !! i <> Some (k, AwaitImport n);
  memo_later : forall i c, base <= i -> calls p !! i = Some (k, c) ->
                 c = AwaitInit (Fulfilled ()) \/ c = Returned (Fulfilled (engine b))
}.

(** The weaker state that holds from the start when the loader hands out the
    one binding [b] for kind [k]: every call of kind [k] waits for an import,
    or waits for [b]'s wasm initialisation with [b] in the cell, or has
    returned [b]'s engine. *)
Record SingleBinding (k : EngineKind) (b : Binding) (p : Process) : Prop := {
  single_cell : forall b', instance k (cells p) = Some b' -> b' = b;
  single_calls : forall i c, calls p !! i = Some (k, c) ->
                   (exists n, c = AwaitImport n)
                   \/ (c = AwaitInit (Fulfilled ()) /\ instance k (cells p) = Some b)
                   \/ c = Returned (Fulfilled (engine b))
}.

(** Two loaders to run the model on.  [cachingLoader] behaves like the ES
    module map: every import of a kind resolves to the same binding. *)
Definition cachingLoader (k : EngineKind) (n : nat) : Settled Binding :=
  Fulfilled {| initWasmPromise := Fulfilled ();
               engine := match k with Resvg => 1 | Satori => 2 | Sharp => 3 end |}.

(** [flakyLoader] rejects the first import of each kind and resolves the
    later ones. *)
Definition flakyLoader (k : EngineKind) (n : nat) : Settled Binding :=
  match n with
  | 0 => Rejected "Cannot find module"
  | S _ => cachingLoader k n
  end.

End Instances.

(** ** JavaScript strings and values used by [setup] *)

Module Js.

(** [s.split(sep)] for a one-character separator: never empty. *)
Fixpoint split (sep : ascii) (s : string) : list string :=
  match s with
  | EmptyString => [EmptyString]
  | String c rest =>
      if Ascii.eqb c sep then EmptyString :: split sep rest
      else match split sep rest with
           | piece :: pieces => String c piece :: pieces
           | [] => [String c EmptyString]
           end
  end.

(** [s.startsWith(p)]. *)
Definition startsWith (p s : string) : bool := String.prefix p s.

(** [xs.includes(x)] on an array of strings. *)
Definition includes (xs : list string) (x : string) : bool :=
  existsb (String.eqb x) xs.

(** Truthiness of a value of type [string | undefined]. *)
Definition truthy (v : option string) : bool :=
  match v with
  | Some s => negb (String.eqb s "")
  | None => false
  end.

(** [a || b] on values of type [string | undefined]. *)
Definition orElse (a b : option string) : option string :=
  if truthy a then a else b.

(** No [':'] occurs in the string. *)
Fixpoint colonFree (s : string) : bool :=
  match s with
  | EmptyString => true
  | String c rest => negb (Ascii.eqb c ":") && colonFree rest
  end.

End Js.

(** ** Types of [runtime/types] and [compatibility] *)

(** A font weight is written as a number or as a string. *)
Inductive Weight : Type :=
| WeightNumber (n : N)
| WeightString (s : string).

(** [`${w}`] for a weight that may be undefined. *)
Definition showWeight (w : option Weight) : string :=
  match w with
  | None => "undefined"
  | Some (WeightNumber n) => NilZero.string_of_uint (N.to_uint n)
  | Some (WeightString s) => s
  end.

(** Modelled from the spec: [FontConfig] of [runtime/types] is not in src; the
    fields are those of the spec's FontDescriptor (name, weight, local path,
    asset or fetch key) and those the code reads ([name], [weight], [path],
    [key]). *)
Record FontConfig : Type := {
  name : string;
  weight : option Weight;
  path : option string;
  key : option string
}.

(** [InputFontConfig = string | FontConfig]. *)
Inductive InputFontConfig : Type :=
| Shorthand (s : string)
| Descriptor (f : FontConfig).

(** Modelled from the spec: the compatibility types of [runtime/types] are not
    in src; per phase, per engine, a flag that is [true], [false] or left
    undefined.  [setup] writes the keys [chromium] and [sharp] only. *)
Record EngineFlags : Type := {
  chromium : option bool;
  resvg : option bool;
  satori : option bool;
  sharp : option bool
}.

Record CompatibilityConfig : Type := {
  runtime : option EngineFlags;
  dev : option EngineFlags;
  prerender : option EngineFlags
}.

Definition noFlags : EngineFlags :=
  {| chromium := None; resvg := None; satori := None; sharp := None |}.

Definition noCompatibility : CompatibilityConfig :=
  {| runtime := None; dev := None; prerender := None |}.

(** The three execution phases of the matrix. *)
Inductive Phase : Type := Runtime | Dev | Prerender.

Definition phaseFlags (ph : Phase) (c : option CompatibilityConfig) : EngineFlags :=
  match c with
  | None => noFlags
  | Some c =>
      default noFlags
        match ph with
        | Runtime => runtime c
        | Dev => dev c
        | Prerender => prerender c
        end
  end.

(** [defu(object, defaults)] of the defu package on these shapes: a key of
    [object] wins unless it is undefined, nested objects are merged key by key. *)
Module Defu.

Definition leaf {A : Type} (object defaults : option A) : option A :=
  match object with
  | Some v => Some v
  | None => defaults
  end.

Definition flags (object defaults : EngineFlags) : EngineFlags :=
  {| chromium := leaf (chromium object) (chromium defaults);
     resvg := leaf (resvg object) (resvg defaults);
     satori := leaf (satori object) (satori defaults);
     sharp := leaf (sharp object) (sharp defaults) |}.

Definition phase (object defaults : option EngineFlags) : option EngineFlags :=
  match object, defaults with
  | Some o, Some d => Some (flags o d)
  | Some o, None => Some o
  | None, d => d
  end.

Definition defu (object : CompatibilityConfig) (defaults : option CompatibilityConfig)
  : option CompatibilityConfig :=
  match defaults with
  | None => Some object
  | Some d =>
      Some {| runtime := phase (runtime object) (runtime d);
              dev := phase (dev object) (dev d);
              prerender := phase (prerender object) (prerender d) |}
  end.

End Defu.

(** One row of the static preset table: what [getPresetNitroPresetCompatibility]
    returns.  Only the truthiness of [bindings.chromium] and [bindings.sharp]
    is read by [setup]. *)
Record Bindings : Type := {
  bindingsChromium : bool;
  bindingsSharp : bool
}.

Record TargetCompatibility : Type := {
  bindings : Bindings
}.

(** [OgImageOptions]: the two defaults [setup] inspects. *)
Record OgImageOptions : Type := {
  extension : option string;
  renderer : option string
}.

(** The part of [nuxt.options.nitro] that is read. *)
Record NitroPrerender : Type := {
  routes : option (list string);
  crawlLinks : bool
}.

Record NitroConfig : Type := {
  preset : option string;
  nitroPrerender : option NitroPrerender
}.

(** [nuxt.options]. *)
Record NuxtOptions : Type := {
  ssr : bool;
  optDev : bool;
  optDebug : bool;
  _generate : bool;
  build : bool;
  nitro : NitroConfig
}.

(** What [setup] asks of its surroundings: functions of [./compatibility],
    [@nuxt/kit] and chrome-launcher that are not part of this file. *)
Record Host : Type := {
  resolveNitroPreset : NitroConfig -> string;
  getPresetNitroPresetCompatibility : string -> TargetCompatibility;
  tryResolveModule : string -> option string;
  getFirstInstallation : option string;
  hasNuxtModule : string -> bool
}.

(** Every call [setup] makes on the logger, on [@nuxt/kit] and on [nuxt], in
    program order.  [resolve(p)] is recorded as [p]. *)
Inductive Effect : Type :=
| SetLoggerLevel (level : nat)
| LogDebug (msg : string)
| LogInfo (msg : string)
| LogWarn (msg : string)
| EnsureDependencies (deps : list string)
| EnsureChromium
| InstallNuxtSiteConfig
| AddServerPlugin (src : string)
| AddServerHandler (route handler : string)
| AddImports (importName from : string)
| AddComponentsDir (dir : string)
| AddComponent (componentName filePath : string)
| AddPlugin (mode src : string)
| AddTemplate (filename : string)
| ExtendTypes (moduleName : string)
| Hook (hookName : string)
| SetOption (optionPath : string)
| SetupDevHandler
| SetupDevToolsUI
| SetupGenerateHandler
| SetupBuildHandler
| SetupPrerenderHandler.

Definition notServerHandler (e : Effect) : Prop :=
  forall route handler, e <> AddServerHandler route handler.

(** [setup] mutates [config] and performs effects: a state monad over the
    configuration that also writes the effects out, in order. *)
Module SetupM.

Section WithConfig.
Context {C : Type}.

Record Result (A : Type) : Type := {
  value : A;
  config : C;
  effects : list Effect
}.
Arguments value {A} r.
Arguments config {A} r.
Arguments effects {A} r.

Definition M (A : Type) : Type := C -> Result A.

Definition ret {A : Type} (a : A) : M A :=
  fun c => {| value := a; config := c; effects := [] |}.

Definition bind {A B : Type} (m : M A) (k : A -> M B) : M B :=
  fun c =>
    let r1 := m c in
    let r2 := k (value r1) (config r1) in
    {| value := value r2; config := config r2;
       effects := (effects r1 ++ effects r2)%list |}.

Definition getConfig : M C :=
  fun c => {| value := c; config := c; effects := [] |}.

Definition setConfig (c : C) : M unit :=
  fun _ => {| value := tt; config := c; effects := [] |}.

Definition emit (e : Effect) : M unit :=
  fun c => {| value := tt; config := c; effects := [e] |}.

Definition when (b : bool) (m : M unit) : M unit := if b then m else ret tt.

Fixpoint forEach {A : Type} (xs : list A) (f : A -> M unit) : M unit :=
  match xs with
  | [] => ret tt
  | x :: xs' => bind (f x) (fun _ => forEach xs' f)
  end.

(** [xs.map(f)] for a callback with effects. *)
Fixpoint mapM {A B : Type} (f : A -> M B) (xs : list A) : M (list B) :=
  match xs with
  | [] => ret []
  | x :: xs' => bind (f x) (fun y => bind (mapM f xs') (fun ys => ret (y :: ys)))
  end.

Definition exec (m : M unit) (c : C) : C * list Effect :=
  (config (m c), effects (m c)).

(** Every effect of [m] satisfies [P], whatever the configuration. *)
Definition Quiet {A : Type} (P : Effect -> Prop) (m : M A) : Prop :=
  forall c, Forall P (effects (m c)).

End WithConfig.
Arguments M : clear implicits.
Arguments Result : clear implicits.
Arguments value {C A} r.
Arguments config {C A} r.
Arguments effects {C A} r.

End SetupM.

Declare Scope setup_scope.
Delimit Scope setup_scope with setup.
Notation "'let*' x ':=' m 'in' k" := (SetupM.bind m (fun x => k))
  (at level 10, x name, m at level 100, k at level 200) : setup_scope.
Notation "m ';;' k" := (SetupM.bind m (fun _ => k))
  (at level 100, k at level 200, right associativity) : setup_scope.

(** [xs.filter(Boolean)] on the result of a [map] whose callback returns
    [false] for the entries to drop. *)
Definition filterBoolean {A : Type} (xs : list (option A)) : list A := omap id xs.

(** [!f.path && !f.key]. *)
Definition lacksPathAndKey (f : FontConfig) : bool :=
  negb (Js.truthy (path f)) && negb (Js.truthy (key f)).

(** The callback of [config.fonts.map] inside the [modules:done] hook. *)
Definition normaliseFont (f : InputFontConfig) : FontConfig :=
  match f with
  | Shorthand s =>
      let parts := Js.split ":" s in
      {| name := default "" (parts !! 0);
         weight := WeightString <$> (parts !! 1);
         path := None;
         key := None |}
  | Descriptor d => d
  end.

Definition fontRoute (f : FontConfig) : string :=
  "/__og-image__/font/" ++ name f ++ "/" ++ showWeight (weight f) ++ ".ttf".

(** ** [setup] of [src/module.ts] *)

Module Current.

Record ModuleOptions : Type := {
  enabled : bool;
  defaults : OgImageOptions;
  fonts : list InputFontConfig;
  debug : bool;
  compatibility : option CompatibilityConfig
}.

(** The [defaults()] of the module, with [isDevelopment] as given. *)
Definition moduleDefaults (isDevelopment : bool) : ModuleOptions :=
  {| enabled := true;
     defaults := {| extension := None; renderer := Some "satori" |};
     fonts := [];
     debug := isDevelopment;
     compatibility := None |}.

Definition setExtension (e : option string) (c : ModuleOptions) : ModuleOptions :=
  {| enabled := enabled c;
     defaults := {| extension := e; renderer := renderer (defaults c) |};
     fonts := fonts c;
     debug := debug c;
     compatibility := compatibility c |}.

Definition setFonts (fs : list InputFontConfig) (c : ModuleOptions) : ModuleOptions :=
  {| enabled := enabled c;
     defaults := defaults c;
     fonts := fs;
     debug := debug c;
     compatibility := compatibility c |}.

Definition setCompatibility (k : option CompatibilityConfig) (c : ModuleOptions)
  : ModuleOptions :=
  {| enabled := enabled c;
     defaults := defaults c;
     fonts := fonts c;
     debug := debug c;
     compatibility := k |}.

(** [OgImageRuntimeConfig], as far as it depends on the modelled options. *)
Record OgImageRuntimeConfig : Type := {
  rcDefaults : OgImageOptions;
  rcDebug : bool;
  rcFonts : list FontConfig;
  rcHasNuxtIcon : bool
}.

(** What the [modules:done] hook leaves behind: the routes pushed to
    [nitro.prerender.routes] and [runtimeConfig['nuxt-og-image']]. *)
Record ModulesDone : Type := {
  pushedRoutes : list string;
  runtimeConfig : OgImageRuntimeConfig
}.

(** The warning of lines 253, for the font written [what]. *)
Definition skippedMessage (what : string) : string :=
  "The " ++ what ++ " font was skipped because remote fonts are not available in StackBlitz, please use a local font.".

(** The descriptor of lines 245-250: the Inter face shipped as a server asset. *)
Definition bundledInter (w : option Weight) : FontConfig :=
  {| name := "Inter";
     weight := w;
     path := None;
     key := Some ("nuxt-og-image:fonts:inter-latin-ext-" ++ showWeight w ++ "-normal.woff") |}.

(** The same key set to [v] in the three phases. *)
Definition allPhases (f : EngineFlags) : CompatibilityConfig :=
  {| runtime := Some f; dev := Some f; prerender := Some f |}.

Definition sharpFlag (v : bool) : EngineFlags :=
  {| chromium := None; resvg := None; satori := None; sharp := Some v |}.

Definition chromiumFlag (v : bool) : EngineFlags :=
  {| chromium := Some v; resvg := None; satori := None; sharp := None |}.

Section Setup.

Variable host : Host.
Variable nuxt : NuxtOptions.

Import SetupM.
Local Open Scope setup_scope.

Local Abbreviation M := (SetupM.M ModuleOptions).

Definition mergeCompatibility (object : CompatibilityConfig) : M unit :=
  let* config := getConfig in
  setConfig (setCompatibility (Defu.defu object (compatibility config)) config).

(** Lines 167-195: the default extension and the sharp binding. *)
Definition resolveSharp (preset : string) (targetCompatibility : TargetCompatibility)
  : M unit :=
  let* config := getConfig in
  let hasSharpDependency := Js.truthy (tryResolveModule host "sharp") in
  let userConfiguredExtension := extension (defaults config) in
  let hasConfiguredJpegs :=
    Js.truthy userConfiguredExtension
    && Js.includes ["jpeg"; "jpg"] (default "" userConfiguredExtension) in
  let sharpBinding := bindingsSharp (bindings targetCompatibility) in
  setConfig
    (setExtension
       (Js.orElse userConfiguredExtension
          (Some (if hasSharpDependency && sharpBinding then "jpg" else "png")))
       config) ;;
  if hasConfiguredJpegs
     && negb (bool_decide (renderer (defaults config) = Some "chromium"))
  then
    if hasSharpDependency && negb sharpBinding then
      emit (LogWarn ("Rendering JPEGs requires sharp which does not work with "
                     ++ preset ++ ". Images will be rendered as PNG at runtime.")) ;;
      mergeCompatibility
        {| runtime := Some (sharpFlag false); dev := None; prerender := None |}
    else if negb hasSharpDependency then
      emit (LogWarn "You have enabled `JPEG` images. These require the `sharp` dependency which is missing, installing it for you.") ;;
      emit (EnsureDependencies ["sharp"]) ;;
      emit (LogWarn "Support for `sharp` is limited so check the compatibility guide.")
    else ret tt
  else if negb hasSharpDependency then
    mergeCompatibility (allPhases (sharpFlag false))
  else ret tt.

(** Lines 197-228: the chromium binding. *)
Definition resolveChromium (targetCompatibility : TargetCompatibility) : M unit :=
  let hasChromeLocally := Js.truthy (getFirstInstallation host) in
  let hasPlaywrightDependency := Js.truthy (tryResolveModule host "playwright") in
  if negb hasChromeLocally && negb hasPlaywrightDependency then
    (if _generate nuxt then emit EnsureChromium
     else if build nuxt then
       emit (LogInfo "You are missing a chromium install. You will not be able to prerender images using the chromium render.")
     else ret tt) ;;
    mergeCompatibility (allPhases (chromiumFlag false))
  else if hasChromeLocally then
    mergeCompatibility
      {| runtime := Some (chromiumFlag false);
         dev := Some (chromiumFlag true);
         prerender := Some (chromiumFlag true) |}
  else if hasPlaywrightDependency && bindingsChromium (bindings targetCompatibility) then
    mergeCompatibility (allPhases (chromiumFlag true))
  else ret tt.

(** Lines 242-257: the callback of [config.fonts.map] on StackBlitz; [None]
    stands for the [false] that [filter(Boolean)] removes. *)
Definition stackblitzFont (f : InputFontConfig) : M (option InputFontConfig) :=
  match f with
  | Shorthand s =>
      if Js.startsWith "Inter:" s then
        let weight := WeightString <$> (Js.split ":" s !! 1) in
        ret (Some (Descriptor
          {| name := "Inter";
             weight := weight;
             path := None;
             key := Some ("nuxt-og-image:fonts:inter-latin-ext-"
                          ++ showWeight weight ++ "-normal.woff") |}))
      else
        emit (LogWarn ("The " ++ s ++ " font was skipped because remote fonts are not available in StackBlitz, please use a local font.")) ;;
        ret None
  | Descriptor d =>
      if lacksPathAndKey d then
        emit (LogWarn ("The " ++ (name d ++ ":" ++ showWeight (weight d))
                       ++ " font was skipped because remote fonts are not available in StackBlitz, please use a local font.")) ;;
        ret None
      else ret (Some f)
  end.

(** Lines 236-262: the font list. *)
Definition resolveFonts (preset : string) : M unit :=
  let* config := getConfig in
  when (Nat.eqb (length (fonts config)) 0)
    (setConfig (setFonts [Shorthand "Inter:400"; Shorthand "Inter:700"] config)) ;;
  when (String.eqb preset "stackblitz")
    (let* config := getConfig in
     let* mapped := mapM stackblitzFont (fonts config) in
     setConfig (setFonts (filterBoolean mapped) config) ;;
     emit (Hook "nitro:config")).

(** Lines 264-282: the three server routes. *)
Definition addRoutes : M unit :=
  let* config := getConfig in
  emit (SetOption "experimental.componentIslands") ;;
  emit (AddServerHandler "/__og-image__/font/**"
          "./runtime/server/routes/__og-image__/font-[name]-[weight].[extension]") ;;
  when (debug config || optDev nuxt)
    (emit (AddServerHandler "/__og-image__/debug.json"
             "./runtime/server/routes/__og-image__/debug.json")) ;;
  emit (AddServerHandler "/__og-image__/image/**"
          "./runtime/server/routes/__og-image__/image").

(** Lines 284-412: composables, components, plugins, templates, types. *)
Definition addRuntime : M unit :=
  emit (SetOption "optimization.treeShake.composables.client") ;;
  forEach ["defineOgImage"; "defineOgImageComponent"; "defineOgImageScreenshot"]
    (fun n => emit (AddImports n ("./runtime/composables/" ++ n))) ;;
  emit (AddComponentsDir "./runtime/components/Templates/Community") ;;
  forEach ["OgImage"; "OgImageScreenshot"]
    (fun n => emit (AddComponent n ("./runtime/components/OgImage/" ++ n))) ;;
  emit (AddPlugin "server" "./runtime/nuxt/plugins/route-rule-og-image.server") ;;
  emit (AddPlugin "server" "./runtime/nuxt/plugins/og-image-canonical-urls.server") ;;
  emit (Hook "components:extend") ;;
  emit (AddTemplate "nuxt-og-image/components.mjs") ;;
  emit (SetOption "nitro.virtual.#nuxt-og-image/component-names.mjs") ;;
  emit (Hook "tailwindcss:config") ;;
  emit (Hook "unocss:config") ;;
  emit (SetOption "nitro.virtual.#nuxt-og-image/unocss-config.mjs") ;;
  emit (ExtendTypes "nuxt-og-image").

(** Lines 473-488: the build handlers. *)
Definition addBuildHandlers : M unit :=
  (if optDev nuxt then emit SetupDevHandler ;; emit SetupDevToolsUI
   else if _generate nuxt then emit SetupGenerateHandler
   else if build nuxt then emit SetupBuildHandler
   else ret tt) ;;
  when (build nuxt) (emit (AddServerPlugin "./runtime/nitro/plugins/prerender")) ;;
  emit SetupPrerenderHandler.

(** [async setup(config, nuxt)]: the configuration as [setup] leaves it, and
    its effects in order. *)
Definition setup (config : ModuleOptions) : ModuleOptions * list Effect :=
  exec
    (emit (SetLoggerLevel (if debug config || optDebug nuxt then 4 else 3)) ;;
     if negb (enabled config) then
       emit (LogDebug "The module is disabled, skipping setup.")
     else if enabled config && negb (ssr nuxt) then
       emit (LogWarn "Nuxt OG Image is enabled but SSR is disabled.

You should enable SSR (`ssr: true`) or disable the module (`ogImage: { enabled: false }`).")
     else
       let preset := resolveNitroPreset host (nitro nuxt) in
       let targetCompatibility := getPresetNitroPresetCompatibility host preset in
       resolveSharp preset targetCompatibility ;;
       resolveChromium targetCompatibility ;;
       emit InstallNuxtSiteConfig ;;
       when (hasNuxtModule host "@nuxt/content")
         (emit (AddServerPlugin "./runtime/nitro/plugins/nuxt-content")) ;;
       resolveFonts preset ;;
       addRoutes ;;
       addRuntime ;;
       emit (Hook "modules:done") ;;
       addBuildHandlers)
    config.

(** Lines 422-432. *)
Definition normalisedFonts (config : ModuleOptions) : list FontConfig :=
  map normaliseFont (fonts config).

(** Lines 420-471: the [modules:done] hook, run on the configuration that
    [setup] has left. *)
Definition modulesDone (config : ModuleOptions) : ModulesDone :=
  {| pushedRoutes :=
       if negb (_generate nuxt) && build nuxt then
         map fontRoute (List.filter lacksPathAndKey (normalisedFonts config))
       else [];
     runtimeConfig :=
       {| rcDefaults := defaults config;
          rcDebug := debug config;
          rcFonts := normalisedFonts config;
          rcHasNuxtIcon := hasNuxtModule host "nuxt-icon" |} |}.

End Setup.

End Current.

(** ** [setup] of the earlier revision of [src/module.ts] *)

Module Earlier.

Record ModuleOptions : Type := {
  enabled : bool;
  defaults : OgImageOptions;
  fonts : list InputFontConfig;
  runtimeSatori : bool;
  runtimeChromium : bool;
  debug : bool
}.

(** The [defaults(nuxt)] of the module. *)
Definition moduleDefaults (isDevelopment : bool) (nuxt : NuxtOptions) : ModuleOptions :=
  {| enabled := true;
     defaults := {| extension := None; renderer := Some "satori" |};
     fonts := [];
     runtimeSatori := true;
     runtimeChromium := optDev nuxt;
     debug := isDevelopment |}.

Definition setExtension (e : option string) (c : ModuleOptions) : ModuleOptions :=
  {| enabled := enabled c;
     defaults := {| extension := e; renderer := renderer (defaults c) |};
     fonts := fonts c;
     runtimeSatori := runtimeSatori c;
     runtimeChromium := runtimeChromium c;
     debug := debug c |}.

Definition setFonts (fs : list InputFontConfig) (c : ModuleOptions) : ModuleOptions :=
  {| enabled := enabled c;
     defaults := defaults c;
     fonts := fs;
     runtimeSatori := runtimeSatori c;
     runtimeChromium := runtimeChromium c;
     debug := debug c |}.

Definition setRuntimeChromium (v : bool) (c : ModuleOptions) : ModuleOptions :=
  {| enabled := enabled c;
     defaults := defaults c;
     fonts := fonts c;
     runtimeSatori := runtimeSatori c;
     runtimeChromium := v;
     debug := debug c |}.

Record OgImageRuntimeConfig : Type := {
  rcRuntimeSatori : bool;
  rcRuntimeChromium : bool;
  rcDefaults : OgImageOptions;
  rcDebug : bool;
  rcFonts : list FontConfig;
  rcHasNuxtIcon : bool
}.

Record ModulesDone : Type := {
  pushedRoutes : list string;
  runtimeConfig : OgImageRuntimeConfig
}.

Section Setup.

Variable host : Host.
Variable nuxt : NuxtOptions.

Import SetupM.
Local Open Scope setup_scope.

Local Abbreviation M := (SetupM.M ModuleOptions).

(** Lines 166-173: the default extension. *)
Definition resolveSharp (compatibility : TargetCompatibility) : M unit :=
  let* config := getConfig in
  let userConfiguredExtension := extension (defaults config) in
  setConfig (setExtension (Js.orElse userConfiguredExtension (Some "jpg")) config) ;;
  when (negb (bindingsSharp (bindings compatibility))
        && negb (bool_decide (renderer (defaults config) = Some "chromium")))
    (when (Js.truthy userConfiguredExtension
           && Js.includes ["jpeg"; "jpg"] (default "" userConfiguredExtension))
       (emit (LogWarn "The sharp runtime is not available for this target, disabling sharp and using png instead.")) ;;
     let* config := getConfig in
     setConfig (setExtension (Some "png") config)).

(** Lines 175-178: the chromium runtime. *)
Definition resolveChromium (compatibility : TargetCompatibility) : M unit :=
  let* config := getConfig in
  when (runtimeChromium config && negb (bindingsChromium (bindings compatibility)))
    (emit (LogWarn "The Chromium runtime is not available for this target, disabling runtimeChromium.") ;;
     setConfig (setRuntimeChromium false config)).

(** Lines 190-196: the callback of [config.fonts.map]. *)
Definition localFont (f : InputFontConfig) : M (option InputFontConfig) :=
  match f with
  | Shorthand _ =>
      emit (LogWarn "Google Fonts are not available in StackBlitz, please use a local font.") ;;
      ret None
  | Descriptor d =>
      if negb (Js.truthy (path d)) then
        emit (LogWarn "Google Fonts are not available in StackBlitz, please use a local font.") ;;
        ret None
      else ret (Some f)
  end.

(** Lines 188-202: the font list.  [config.fonts] is an array, hence truthy. *)
Definition resolveFonts (preset : string) : M unit :=
  let* config := getConfig in
  if negb (String.eqb preset "stackblitz") && true then
    let* mapped := mapM localFont (fonts config) in
    setConfig (setFonts (filterBoolean mapped) config)
  else
    when (Nat.eqb (length (fonts config)) 0)
      (setConfig (setFonts [Shorthand "Inter:400"; Shorthand "Inter:700"] config)).

(** Lines 204-222: the three server routes. *)
Definition addRoutes : M unit :=
  let* config := getConfig in
  emit (SetOption "experimental.componentIslands") ;;
  emit (AddServerHandler "/__og-image__/font/**"
          "./runtime/server/routes/__og-image__/font-[name]-[weight].[extension]") ;;
  when (debug config || optDev nuxt)
    (emit (AddServerHandler "/__og-image__/debug.json"
             "./runtime/server/routes/__og-image__/debug.json")) ;;
  emit (AddServerHandler "/__og-image__/image/**"
          "./runtime/server/routes/__og-image__/image").

(** Lines 224-348: composables, components, plugins, templates, types. *)
Definition addRuntime : M unit :=
  emit (SetOption "optimization.treeShake.composables.client") ;;
  forEach ["defineOgImage"; "defineOgImageComponent"; "defineOgImageScreenshot"]
    (fun n => emit (AddImports n ("./runtime/composables/" ++ n))) ;;
  emit (AddComponentsDir "./runtime/components/Templates/Community") ;;
  forEach ["OgImage"; "OgImageScreenshot"]
    (fun n => emit (AddComponent n ("./runtime/components/OgImage/" ++ n))) ;;
  emit (AddPlugin "server" "./runtime/nuxt/plugins/route-rule-og-image.server") ;;
  emit (AddPlugin "server" "./runtime/nuxt/plugins/og-image-canonical-urls.server") ;;
  emit (Hook "components:extend") ;;
  emit (AddTemplate "og-image-component-names.mjs") ;;
  emit (SetOption "nitro.virtual.#nuxt-og-image/component-names.mjs") ;;
  emit (Hook "tailwindcss:config") ;;
  emit (Hook "unocss:config") ;;
  emit (SetOption "nitro.virtual.#nuxt-og-image/unocss-config.mjs") ;;
  emit (ExtendTypes "nuxt-og-image").

(** [nitro.prerender?.routes?.length || nitro.prerender?.crawlLinks]. *)
Definition prerenders (n : NitroConfig) : bool :=
  match nitroPrerender n with
  | Some pr =>
      negb (Nat.eqb (length (default [] (routes pr))) 0) || crawlLinks pr
  | None => false
  end.

(** Lines 410-425: the build handlers. *)
Definition addBuildHandlers : M unit :=
  (if optDev nuxt then emit SetupDevHandler ;; emit SetupDevToolsUI
   else if _generate nuxt then emit SetupGenerateHandler
   else if build nuxt then emit SetupBuildHandler
   else ret tt) ;;
  when (prerenders (nitro nuxt) || _generate nuxt)
    (emit (AddServerPlugin "./runtime/nitro/plugins/prerender.ts")) ;;
  emit SetupPrerenderHandler.

(** [async setup(config, nuxt)]. *)
Definition setup (config : ModuleOptions) : ModuleOptions * list Effect :=
  exec
    (emit (SetLoggerLevel (if debug config || optDebug nuxt then 4 else 3)) ;;
     if negb (enabled config) then
       emit (LogDebug "The module is disabled, skipping setup.")
     else if enabled config && negb (ssr nuxt) then
       emit (LogWarn "Nuxt OG Image is enabled but SSR is disabled.

You should enable SSR (`ssr: true`) or disable the module (`ogImage: { enabled: false }`).")
     else
       let preset := resolveNitroPreset host (nitro nuxt) in
       let compatibility := getPresetNitroPresetCompatibility host preset in
       resolveSharp compatibility ;;
       resolveChromium compatibility ;;
       emit InstallNuxtSiteConfig ;;
       when (hasNuxtModule host "@nuxt/content")
         (emit (AddServerPlugin "./runtime/nitro/plugins/nuxt-content")) ;;
       resolveFonts preset ;;
       addRoutes ;;
       addRuntime ;;
       emit (Hook "modules:done") ;;
       addBuildHandlers)
    config.

(** Lines 360-370. *)
Definition normalisedFonts (config : ModuleOptions) : list FontConfig :=
  map normaliseFont (fonts config).

(** Lines 356-408: the [modules:done] hook. *)
Definition modulesDone (config : ModuleOptions) : ModulesDone :=
  {| pushedRoutes :=
       if negb (_generate nuxt) && build nuxt then
         map fontRoute
           (List.filter (fun f => negb (Js.truthy (path f))) (normalisedFonts config))
       else [];
     runtimeConfig :=
       {| rcRuntimeSatori := runtimeSatori config;
          rcRuntimeChromium := runtimeChromium config;
          rcDefaults := defaults config;
          rcDebug := debug config;
          rcFonts := normalisedFonts config;
          rcHasNuxtIcon := hasNuxtModule host "nuxt-icon" |} |}.

End Setup.

End Earlier.

(** ** Sample surroundings *)

Module Samples.

(** A host whose target is [presetName], with the given row of the preset
    table and the given local installation. *)
Definition host (presetName : string) (chromiumBinding sharpBinding : bool)
    (chrome playwright sharpDependency : bool) : Host :=
  {| resolveNitroPreset := fun _ => presetName;
     getPresetNitroPresetCompatibility := fun _ =>
       {| bindings := {| bindingsChromium := chromiumBinding;
                         bindingsSharp := sharpBinding |} |};
     tryResolveModule := fun m =>
       if String.eqb m "sharp" then
         if sharpDependency then Some "/app/node_modules/sharp/lib/index.js" else None
       else if String.eqb m "playwright" then
         if playwright then Some "/app/node_modules/playwright/index.mjs" else None
       else None;
     getFirstInstallation := if chrome then Some "/usr/bin/google-chrome" else None;
     hasNuxtModule := fun _ => false |}.

(** A production build ([nuxt build]) or the dev server ([nuxt dev]). *)
Definition nuxt (devServer : bool) : NuxtOptions :=
  {| ssr := true;
     optDev := devServer;
     optDebug := false;
     _generate := false;
     build := true;
     nitro := {| preset := None; nitroPrerender := None |} |}.

Definition withFonts (fs : list InputFontConfig) : Current.ModuleOptions :=
  Current.setFonts fs (Current.moduleDefaults false).


Definition earlierWithExtension (e : string) : Earlier.ModuleOptions :=
  Earlier.setExtension (Some e) (Earlier.moduleDefaults false (nuxt false)).

Definition disabled : Current.ModuleOptions :=
  {| Current.enabled := false;
     Current.defaults := Current.defaults (Current.moduleDefaults false);
     Current.fonts := [];
     Current.debug := false;
     Current.compatibility := None |}.

Definition earlierDisabled : Earlier.ModuleOptions :=
  {| Earlier.enabled := false;
     Earlier.defaults := Earlier.defaults (Earlier.moduleDefaults false (nuxt false));
     Earlier.fonts := [];
     Earlier.runtimeSatori := true;
     Earlier.runtimeChromium := false;
     Earlier.debug := false |}.

(** The options the two revisions have in common are set alike. *)
Definition sameOptions (c : Current.ModuleOptions) (c0 : Earlier.ModuleOptions) : Prop :=
  Current.enabled c = Earlier.enabled c0
  /\ Current.defaults c = Earlier.defaults c0
  /\ Current.fonts c = Earlier.fonts c0
  /\ Current.debug c = Earlier.debug c0.

Definition debugHandler : Effect :=
  AddServerHandler "/__og-image__/debug.json"
    "./runtime/server/routes/__og-image__/debug.json".

End Samples.

(** ** The rest of [setup]: cache key, colour preference, component discovery *)

#[global] Instance Event_eq_dec : EqDecision Instances.Event.
Proof. solve_decision. Defined.

(** Classes of effects. *)
Definition isServerHandler (e : Effect) : bool :=
  match e with
  | AddServerHandler _ _ => true
  | _ => false
  end.

Definition isInstall (e : Effect) : bool :=
  match e with
  | EnsureDependencies _ | EnsureChromium => true
  | _ => false
  end.

Definition isBuildSetup (e : Effect) : bool :=
  match e with
  | SetupDevHandler | SetupDevToolsUI | SetupGenerateHandler
  | SetupBuildHandler | SetupPrerenderHandler => true
  | _ => false
  end.

Definition isServerPlugin (e : Effect) : bool :=
  match e with
  | AddServerPlugin _ => true
  | _ => false
  end.

Definition isHook (e : Effect) : bool :=
  match e with
  | Hook _ => true
  | _ => false
  end.

(** More of the JavaScript string library. *)
Module JsString.

(** [hay.includes(needle)]. *)
Fixpoint includes (needle hay : string) : bool :=
  String.prefix needle hay
  || match hay with
     | EmptyString => false
     | String _ rest => includes needle rest
     end.

(** [s.slice(n)]. *)
Fixpoint slice (n : nat) (s : string) : string :=
  match n, s with
  | 0, _ => s
  | S n', String _ rest => slice n' rest
  | S _, EmptyString => EmptyString
  end.

(** [s.replace(pattern, replacement)] for a string pattern and a replacement
    without [$]: the first occurrence is replaced. *)
Fixpoint replace (pattern replacement s : string) : string :=
  if String.prefix pattern s then replacement ++ slice (String.length pattern) s
  else match s with
       | EmptyString => EmptyString
       | String c rest => String c (replace pattern replacement rest)
       end.

(** The line feed of ['\n']. *)
Definition lineFeed : ascii := Ascii.ascii_of_nat 10.

End JsString.

(** Lines 414-418 of [src/module.ts]. *)
Module Cache.

(** [runtimeCacheStorage: boolean | (Record<string, any> & { driver: string })];
    line 414 also reckons with [undefined]. *)
Inductive RuntimeCacheStorage : Type :=
| Undefined
| Flag (b : bool)
| Storage (driver : string) (options : list (string * string)).

(** [typeof s !== 'undefined' && s !== false]. *)
Definition cacheEnabled (s : RuntimeCacheStorage) : bool :=
  match s with
  | Undefined => false
  | Flag b => b
  | Storage _ _ => true
  end.

(** [typeof s === 'boolean' ? 'default' : s.driver]; reading [driver] of
    [undefined] throws. *)
Definition runtimeCacheStorage (s : RuntimeCacheStorage) : Settled string :=
  match s with
  | Undefined => Rejected "TypeError"
  | Flag _ => Fulfilled "default"
  | Storage driver _ => Fulfilled driver
  end.

(** The value of [baseCacheKey] after line 418: [None] stands for [false]. *)
Definition baseCacheKey (version : string) (s : RuntimeCacheStorage)
  : Settled (option string) :=
  let enabled := cacheEnabled s in
  match runtimeCacheStorage s with
  | Rejected e => Rejected e
  | Fulfilled driver =>
      let key := if String.eqb driver "default"
                 then "/cache/nuxt-og-image@" ++ version
                 else "/nuxt-og-image@" ++ version in
      Fulfilled (if negb enabled then None else Some key)
  end.

End Cache.

(** Lines 445-449 of [src/module.ts]: [preference] is what
    [getNuxtModuleOptions('@nuxtjs/color-mode')] holds under [preference]. *)
Definition colorPreference (host : Host) (preference : option string) : string :=
  let colorPreference :=
    if hasNuxtModule host "@nuxtjs/color-mode" then preference else Some "light" in
  if negb (Js.truthy colorPreference)
     || negb (Js.includes ["dark"; "light"] (default "" colorPreference))
  then "light"
  else default "" colorPreference.

(** Lines 318-359 of [src/module.ts]: the [components:extend] hook. *)
Module Components.

(** A Nuxt component, as far as the hook reads and writes it. *)
Record Component : Type := {
  pascalName : string;
  kebabName : string;
  shortPath : string;
  filePath : string;
  island : option bool;
  mode : option string
}.

Inductive Category : Type := App | Community.

(** What the hook needs from [node:fs], ohash, the resolver of
    [createResolver(import.meta.url)] and [String.prototype.trim]. *)
Record Files : Type := {
  existsSync : string -> bool;
  readFileSync : string -> string;
  hash : string -> string;
  resolve : string -> string;
  trim : string -> string
}.

Module OgImageComponent.

Record t : Type := {
  hash : string;
  pascalName : string;
  kebabName : string;
  path : option string;
  category : Category;
  credits : option string
}.

End OgImageComponent.

Section Hook.

Variable files : Files.
Variable componentDirs : list string.
Variable dev : bool.

(** Lines 324-332: the [valid] flag of one component. *)
Definition valid (component : Component) : bool :=
  let valid :=
    fold_left
      (fun valid dir =>
         if Js.startsWith dir (pascalName component)
            || Js.startsWith dir (kebabName component)
            || JsString.includes ("/" ++ dir ++ "/") (shortPath component)
         then true else valid)
      componentDirs false in
  if JsString.includes (resolve files "./runtime/components/Templates")
       (filePath component)
  then true else valid.

(** Line 334: the test that guards the body. *)
Definition kept (component : Component) : bool :=
  valid component && existsSync files (filePath component).

(** Line 344: the text after [@credits] on the first line that starts with
    [ * @credits]. *)
Definition credits (componentFile : string) : option string :=
  (fun line => trim files (JsString.replace "* @credits" "" line))
    <$> List.find (Js.startsWith " * @credits")
          (Js.split JsString.lineFeed componentFile).

(** Lines 339-353: the entry pushed for a kept component. *)
Definition entry (component : Component) : OgImageComponent.t :=
  let category :=
    if JsString.includes (resolve files "./runtime/components/Templates/Community")
         (filePath component)
    then Community else App in
  let componentFile := readFileSync files (filePath component) in
  {| OgImageComponent.hash := hash files componentFile;
     OgImageComponent.pascalName := pascalName component;
     OgImageComponent.kebabName := kebabName component;
     OgImageComponent.path := if dev then Some (filePath component) else None;
     OgImageComponent.category := category;
     OgImageComponent.credits := credits componentFile |}.

(** Lines 336-337: a kept component becomes a server island, in place. *)
Definition markIsland (component : Component) : Component :=
  {| pascalName := pascalName component;
     kebabName := kebabName component;
     shortPath := shortPath component;
     filePath := filePath component;
     island := Some true;
     mode := Some "server" |}.

(** One turn of [components.forEach]: the component as the loop leaves it and
    the entries pushed to [ogImageComponentCtx.components]. *)
Definition visit (component : Component) : Component * list OgImageComponent.t :=
  if kept component then (markIsland component, [entry component])
  else (component, []).

(** The hook: [ogImageComponentCtx.components] is reset, then the components
    are visited in order.  The result is the component array after the loop
    and the new [ogImageComponentCtx.components]. *)
Definition extend (ctx : list OgImageComponent.t) (components : list Component)
  : list Component * list OgImageComponent.t :=
  fold_left
    (fun acc component =>
       let '(seen, ctx) := acc in
       let '(component', pushed) := visit component in
       ((seen ++ [component'])%list, (ctx ++ pushed)%list))
    components ([], []).

End Hook.

End Components.

(** More surroundings to run the model on. *)
Module MoreSamples.

(** [trim] on text whose only white space is the ASCII blank. *)
Fixpoint trimStart (s : string) : string :=
  match s with
  | String c rest => if Ascii.eqb c " " then trimStart rest else s
  | EmptyString => EmptyString
  end.

Fixpoint trimEnd (s : string) : string :=
  match s with
  | EmptyString => EmptyString
  | String c rest =>
      match trimEnd rest with
      | EmptyString => if Ascii.eqb c " " then EmptyString else String c EmptyString
      | rest' => String c rest'
      end
  end.

Definition files : Components.Files :=
  {| Components.existsSync := fun p => negb (String.eqb p "/app/components/Missing.vue");
     Components.readFileSync := fun _ => "<!--
 * @credits Jane Doe
-->";
     Components.hash := fun content => "h" ++ content;
     Components.resolve := fun p => "/app/node_modules/nuxt-og-image/dist" ++ JsString.slice 1 p;
     Components.trim := fun s => trimEnd (trimStart s) |}.

Definition component (pascal kebab short file : string) : Components.Component :=
  {| Components.pascalName := pascal;
     Components.kebabName := kebab;
     Components.shortPath := short;
     Components.filePath := file;
     Components.island := None;
     Components.mode := None |}.

Definition banner : Components.Component :=
  component "OgImageBanner" "og-image-banner" "components/OgImage/Banner.vue"
    "/app/components/OgImage/Banner.vue".

Definition footer : Components.Component :=
  component "AppFooter" "app-footer" "components/AppFooter.vue"
    "/app/components/AppFooter.vue".

Definition communityTemplate : Components.Component :=
  component "NuxtSeo" "nuxt-seo" "Templates/Community/NuxtSeo.vue"
    "/app/node_modules/nuxt-og-image/dist/runtime/components/Templates/Community/NuxtSeo.vue".

(** A binding whose wasm initialisation fails. *)
Definition brokenWasm : Instances.Binding :=
  {| Instances.initWasmPromise := Rejected "wasm init failed"; Instances.engine := 9 |}.

Definition brokenLoader (k : Instances.EngineKind) (n : nat) : Settled Instances.Binding :=
  Fulfilled brokenWasm.

End MoreSamples.

(** * Properties *)

(** ** The memo cells of [instances.ts] *)

Section InstancesFacts.

Import Instances.

Variable importBinding : EngineKind -> nat -> Settled Binding.

Lemma instance_setInstance (k k' : EngineKind) (b : Binding) (c : Cells) :
  instance k (setInstance k' b c) = if decide (k = k') then Some b else instance k c.
Proof. destruct k, k'; reflexivity. Qed.

Lemma instance_setInstance_eq (k : EngineKind) (b : Binding) (c : Cells) :
  instance k (setInstance k b c) = Some b.
Proof. rewrite instance_setInstance. by rewrite decide_True. Qed.

Lemma setInstance_same (k : EngineKind) (b : Binding) (c : Cells) :
  instance k c = Some b -> setInstance k b c = c.
Proof. destruct c, k; simpl; congruence. Qed.

(** A call on an empty cell, run to completion: one [import()] is evaluated
    and its outcome decides everything. *)
Lemma use_empty (k : EngineKind) (p : Process) :
  instance k (cells p) = None ->
  use importBinding k p =
    match importBinding k (importCount k p) with
    | Fulfilled b =>
        {| cells := setInstance k b (cells p);
           imported := imported p ++ [k];
           calls := calls p ++
             [(k, Returned
                    (if awaitsInitWasm k then
                       match initWasmPromise b with
                       | Fulfilled _ => Fulfilled (engine b)
                       | Rejected e => Rejected e
                       end
                     else Fulfilled (engine b)))] |}
    | Rejected e =>
        {| cells := cells p;
           imported := imported p ++ [k];
           calls := calls p ++ [(k, Returned (Rejected e))] |}
    end.
Proof.
  intros Hempty. unfold use, run; simpl. unfold invoke. rewrite Hempty.
  unfold resume at 2; simpl. rewrite list_lookup_middle by done.
  destruct (importBinding k (importCount k p)) as [b|e]; simpl.
  - rewrite insert_app_r_alt, Nat.sub_diag by done; simpl.
    unfold resume, afterAssign; simpl. rewrite list_lookup_middle by done.
    destruct (awaitsInitWasm k); [|done].
    destruct (initWasmPromise b) as [[]|e]; simpl;
      rewrite insert_app_r_alt, Nat.sub_diag by done; simpl; [|done].
    unfold readEngine. by rewrite instance_setInstance_eq.
  - rewrite insert_app_r_alt, Nat.sub_diag by done; simpl.
    unfold resume; simpl. by rewrite list_lookup_middle.
Qed.

(** A call on a filled cell, run to completion: nothing is imported. *)
Lemma use_filled (k : EngineKind) (b : Binding) (p : Process) :
  instance k (cells p) = Some b ->
  use importBinding k p =
    {| cells := cells p;
       imported := imported p;
       calls := calls p ++
         [(k, Returned
                (if awaitsInitWasm k then
                   match initWasmPromise b with
                   | Fulfilled _ => Fulfilled (engine b)
                   | Rejected e => Rejected e
                   end
                 else Fulfilled (engine b)))] |}.
Proof.
  intros Hfull. unfold use, run; simpl. unfold invoke. rewrite Hfull.
  rewrite (setInstance_same _ _ _ Hfull).
  unfold resume at 2, afterAssign; simpl. rewrite list_lookup_middle by done.
  destruct (awaitsInitWasm k).
  - destruct (initWasmPromise b) as [[]|e]; simpl;
      rewrite insert_app_r_alt, Nat.sub_diag by done; simpl;
      unfold resume; simpl; rewrite list_lookup_middle by done; [|done].
    unfold readEngine. by rewrite Hfull.
  - unfold resume; simpl. by rewrite list_lookup_middle.
Qed.

Lemma outcome_snoc (k : EngineKind) (r : Settled Handle) (cs : Cells)
    (ks : list EngineKind) (l : list (EngineKind * Cont)) :
  outcome (length l) {| cells := cs; imported := ks; calls := l ++ [(k, Returned r)] |}
  = Some r.
Proof. unfold outcome; simpl. by rewrite list_lookup_middle. Qed.

Lemma importCount_step_other (k k' : EngineKind) (p : Process) :
  k' <> k -> importCount k (invoke k' p) = importCount k p.
Proof.
  intros Hne. unfold invoke. destruct (instance k' (cells p)); [done|].
  unfold importCount; simpl. rewrite filter_app, length_app.
  rewrite filter_cons_False by done. simpl. lia.
Qed.

Lemma importCount_resume (k : EngineKind) (i : nat) (p : Process) :
  importCount k (resume importBinding i p) = importCount k p.
Proof.
  unfold resume. destruct (calls p !! i) as [[k' [n|[[]|e]|r]]|]; try done.
  by destruct (importBinding k' n).
Qed.

(** Once a kind is initialised it stays so, whatever the event loop does. *)
Lemma step_Memoised (k : EngineKind) (b : Binding) (base count : nat) (ev : Event)
    (p : Process) :
  initWasmPromise b = Fulfilled () ->
  Memoised k b base count p ->
  Memoised k b base count (step importBinding ev p).
Proof.
  intros Hinit [Hcell Hcount Hidle Hlater]. destruct ev as [k'|i]; simpl.
  - destruct (decide (k' = k)) as [->|Hne].
    + unfold invoke. rewrite Hcell. split; simpl.
      * apply instance_setInstance_eq.
      * done.
      * intros i n [H|[_ H]]%lookup_app_Some; [by eapply Hidle|].
        apply list_lookup_singleton_Some in H as [_ H].
        unfold afterAssign in H. by destruct (awaitsInitWasm k).
      * intros i c Hi [H|[_ H]]%lookup_app_Some; [by eapply Hlater|].
        apply list_lookup_singleton_Some in H as [_ H].
        unfold afterAssign in H. rewrite Hinit in H.
        destruct (awaitsInitWasm k); injection H as <-; auto.
    + split.
      * unfold invoke. destruct (instance k' (cells p)); simpl; [|done].
        rewrite instance_setInstance. by rewrite decide_False.
      * by rewrite importCount_step_other.
      * intros i n. unfold invoke.
        destruct (instance k' (cells p)); simpl;
          intros [H|[_ H]]%lookup_app_Some;
          solve [by eapply Hidle
                | apply list_lookup_singleton_Some in H as [_ H]; congruence].
      * intros i c Hi. unfold invoke.
        destruct (instance k' (cells p)); simpl;
          intros [H|[_ H]]%lookup_app_Some;
          solve [by eapply Hlater
                | apply list_lookup_singleton_Some in H as [_ H]; congruence].
  - split.
    + unfold resume. destruct (calls p !! i) as [[k' [n|[[]|e]|r]]|] eqn:Hi; try done.
      destruct (decide (k' = k)) as [->|Hne]; [by destruct (Hidle i n)|].
      destruct (importBinding k' n); simpl; [|done].
      rewrite instance_setInstance. by rewrite decide_False.
    + by rewrite importCount_resume.
    + intros j n. unfold resume.
      destruct (calls p !! i) as [[k' [m|[[]|e]|r]]|] eqn:Hi; try apply Hidle.
      * destruct (decide (k' = k)) as [->|Hne]; [by destruct (Hidle i m)|].
        destruct (importBinding k' m); simpl;
          intros [(_ & H & _)|[_ H]]%list_lookup_insert_Some;
          solve [congruence | by eapply Hidle].
      * simpl. intros [(_ & H & _)|[_ H]]%list_lookup_insert_Some;
          solve [congruence | by eapply Hidle].
      * simpl. intros [(_ & H & _)|[_ H]]%list_lookup_insert_Some;
          solve [congruence | by eapply Hidle].
    + intros j c Hj. unfold resume.
      destruct (calls p !! i) as [[k' [m|[[]|e]|r]]|] eqn:Hi; try by apply Hlater.
      * destruct (decide (k' = k)) as [->|Hne]; [by destruct (Hidle i m)|].
        destruct (importBinding k' m); simpl;
          intros [(_ & H & _)|[_ H]]%list_lookup_insert_Some;
          solve [congruence | by eapply Hlater].
      * simpl. intros [(-> & H & _)|[_ H]]%list_lookup_insert_Some;
          [|by eapply Hlater].
        injection H as <- <-. unfold readEngine. rewrite Hcell. auto.
      * simpl. intros [(-> & H & _)|[_ H]]%list_lookup_insert_Some;
          [|by eapply Hlater].
        injection H as <- <-. destruct (Hlater _ _ Hj Hi); congruence.
Qed.

Lemma run_Memoised (k : EngineKind) (b : Binding) (base count : nat)
    (evs : list Event) (p : Process) :
  initWasmPromise b = Fulfilled () ->
  Memoised k b base count p ->
  Memoised k b base count (run importBinding evs p).
Proof.
  intros Hinit. revert p. induction evs as [|ev evs IH]; intros p Hp; [done|].
  simpl. apply IH. by apply step_Memoised.
Qed.

Lemma step_SingleBinding (k : EngineKind) (b : Binding) (ev : Event) (p : Process) :
  (forall n, importBinding k n = Fulfilled b) ->
  initWasmPromise b = Fulfilled () ->
  SingleBinding k b p ->
  SingleBinding k b (step importBinding ev p).
Proof.
  intros Hload Hinit [Hcell Hcalls]. destruct ev as [k'|i]; simpl.
  - unfold invoke. destruct (decide (k' = k)) as [->|Hne].
    + destruct (instance k (cells p)) as [b'|] eqn:Hk.
      * pose proof (Hcell _ eq_refl) as ->. rewrite (setInstance_same _ _ _ Hk).
        split; simpl; [by rewrite Hk|].
        intros i c [H|[_ H]]%lookup_app_Some.
        { destruct (Hcalls _ _ H) as [?|[[? ?]|?]]; auto. }
        apply list_lookup_singleton_Some in H as [_ H].
        unfold afterAssign in H. rewrite Hinit in H.
        destruct (awaitsInitWasm k); injection H as <-; auto.
      * split; simpl; [by rewrite Hk|].
        intros i c [H|[_ H]]%lookup_app_Some.
        { destruct (Hcalls _ _ H) as [?|[[? ?]|?]]; auto. congruence. }
        apply list_lookup_singleton_Some in H as [_ H]. injection H as <-. eauto.
    + assert (Hsame : forall b', instance k (setInstance k' b' (cells p))
                                 = instance k (cells p)).
      { intros b'. rewrite instance_setInstance. by rewrite decide_False. }
      destruct (instance k' (cells p)) as [b'|]; split; simpl;
        try rewrite Hsame; try exact Hcell;
        intros i c [H|[_ H]]%lookup_app_Some;
        solve [exact (Hcalls _ _ H)
              | apply list_lookup_singleton_Some in H as [_ H]; congruence].
  - unfold resume.
    destruct (calls p !! i) as [[k' [n|[[]|e]|r]]|] eqn:Hi; try done.
    + destruct (decide (k' = k)) as [->|Hne].
      * rewrite Hload. split; simpl.
        { intros b'. rewrite instance_setInstance_eq. congruence. }
        rewrite instance_setInstance_eq.
        intros j c [(_ & H & _)|[_ H]]%list_lookup_insert_Some.
        { unfold afterAssign in H. rewrite Hinit in H.
          destruct (awaitsInitWasm k); injection H as <-; auto. }
        destruct (Hcalls _ _ H) as [?|[[? ?]|?]]; auto.
      * assert (Hsame : forall b', instance k (setInstance k' b' (cells p))
                                   = instance k (cells p)).
        { intros b'. rewrite instance_setInstance. by rewrite decide_False. }
        destruct (importBinding k' n); split; simpl;
          try rewrite Hsame; try exact Hcell;
          intros j c [(_ & H & _)|[_ H]]%list_lookup_insert_Some;
          solve [congruence | exact (Hcalls _ _ H)].
    + split; simpl; [done|].
      intros j c [(-> & H & _)|[_ H]]%list_lookup_insert_Some; [|exact (Hcalls _ _ H)].
      injection H as <- <-.
      destruct (Hcalls _ _ Hi) as [[? ?]|[[_ Hk]|?]]; try done.
      unfold readEngine. rewrite Hk. auto.
    + split; simpl; [done|].
      intros j c [(-> & H & _)|[_ H]]%list_lookup_insert_Some; [|exact (Hcalls _ _ H)].
      injection H as <- <-.
      destruct (Hcalls _ _ Hi) as [[? ?]|[[? _]|?]]; done.
Qed.

(** With a loader that hands out one binding per kind, every call returns
    that binding's engine, however the calls interleave. *)
Lemma same_engine_with_caching_loader (k : EngineKind) (b : Binding)
    (evs : list Event) (i : nat) (r : Settled Handle) :
  (forall n, importBinding k n = Fulfilled b) ->
  initWasmPromise b = Fulfilled () ->
  outcome i (run importBinding evs start) = Some r ->
  fst <$> (calls (run importBinding evs start) !! i) = Some k ->
  r = Fulfilled (engine b).
Proof.
  intros Hload Hinit.
  assert (Hinv : SingleBinding k b (run importBinding evs start)).
  { assert (H0 : SingleBinding k b start) by (split; [by destruct k|done]).
    revert H0. generalize start. induction evs as [|ev evs IH]; intros p Hp; [done|].
    simpl. apply IH. by apply step_SingleBinding. }
  unfold outcome. destruct (calls _ !! i) as [[k' c]|] eqn:Hi; [|done].
  simpl. intros Hr [= ->]. destruct c as [| |r']; try done. injection Hr as ->.
  destruct (single_calls _ _ _ Hinv _ _ Hi) as [[? ?]|[[? _]|?]]; congruence.
Qed.

(** The first call on an empty cell, up to the point where its import has
    resolved. *)
Lemma import_resolved (k : EngineKind) (b : Binding) (p : Process) :
  instance k (cells p) = None ->
  importBinding k (importCount k p) = Fulfilled b ->
  run importBinding [Call k; Resume (length (calls p))] p
  = {| cells := setInstance k b (cells p);
       imported := imported p ++ [k];
       calls := calls p ++ [(k, afterAssign k b)] |}.
Proof.
  intros Hempty Hload. unfold run; simpl. unfold invoke. rewrite Hempty.
  unfold resume; simpl. rewrite list_lookup_middle, Hload by done.
  by rewrite insert_app_r_alt, Nat.sub_diag.
Qed.

(** C3 (as amended): the first call of an accessor on an empty cell evaluates
    [import()] once and, run until it settles, returns the engine of the
    binding.  From the moment its import has resolved, no schedule of further
    calls and resumptions imports the module again, the cell keeps the binding,
    and every call of the kind that returns (the first one and all later ones,
    also those issued before the wasm initialisation has completed) returns
    the same engine. *)
Theorem first_use_initialises_once (k : EngineKind) (b : Binding) (p : Process)
    (evs : list Event) :
  instance k (cells p) = None ->
  (forall i n, calls p !! i <> Some (k, AwaitImport n)) ->
  importBinding k (importCount k p) = Fulfilled b ->
  initWasmPromise b = Fulfilled () ->
  let first := length (calls p) in
  let p1 := run importBinding [Call k; Resume first] p in
  let q := run importBinding evs p1 in
  outcome first (use importBinding k p) = Some (Fulfilled (engine b))
  /\ importCount k p1 = S (importCount k p)
  /\ importCount k q = importCount k p1
  /\ instance k (cells q) = Some b
  /\ forall i r, first <= i ->
       calls q !! i = Some (k, Returned r) -> r = Fulfilled (engine b).
Proof.
  intros Hempty Hidle Hload Hinit first p1 q.
  assert (Hp1 : p1 = {| cells := setInstance k b (cells p);
                        imported := imported p ++ [k];
                        calls := calls p ++ [(k, afterAssign k b)] |})
    by (by apply import_resolved).
  assert (Hcount : importCount k p1 = S (importCount k p)).
  { rewrite Hp1. unfold importCount; simpl.
    rewrite filter_app, length_app, filter_cons_True by done. simpl. lia. }
  assert (Hmemo : Memoised k b first (importCount k p1) p1).
  { split; [|done| |]; rewrite Hp1; simpl.
    - apply instance_setInstance_eq.
    - intros i n [H|[_ H]]%lookup_app_Some; [by eapply Hidle|].
      apply list_lookup_singleton_Some in H as [_ H].
      unfold afterAssign in H. by destruct (awaitsInitWasm k).
    - intros i c Hi [H|[_ H]]%lookup_app_Some.
      { apply lookup_lt_Some in H. unfold first in Hi. lia. }
      apply list_lookup_singleton_Some in H as [_ H].
      unfold afterAssign in H. rewrite Hinit in H.
      destruct (awaitsInitWasm k); injection H as <-; auto. }
  pose proof (run_Memoised _ _ _ _ evs _ Hinit Hmemo) as [Hc Hn _ Hl].
  fold q in Hc, Hn, Hl.
  split.
  { rewrite use_empty, Hload, Hinit by done.
    destruct (awaitsInitWasm k); apply outcome_snoc. }
  do 3 (split; [done|]).
  intros i r Hi H. destruct (Hl _ _ Hi H); congruence.
Qed.

(** C4: when the [import()] of a call on an empty cell rejects, the call
    rejects with the same error, no cell changes (the cell of the kind stays
    empty), and the next call evaluates [import()] again: if that import
    resolves, the second call stores the binding and returns its engine. *)
Theorem failed_import_is_not_cached (k : EngineKind) (p : Process) (e : string) :
  instance k (cells p) = None ->
  importBinding k (importCount k p) = Rejected e ->
  let p1 := use importBinding k p in
  let p2 := use importBinding k p1 in
  outcome (length (calls p)) p1 = Some (Rejected e)
  /\ cells p1 = cells p
  /\ importCount k p1 = S (importCount k p)
  /\ importCount k p2 = S (S (importCount k p))
  /\ forall b, importBinding k (S (importCount k p)) = Fulfilled b ->
       initWasmPromise b = Fulfilled () ->
       outcome (length (calls p1)) p2 = Some (Fulfilled (engine b))
       /\ instance k (cells p2) = Some b.
Proof.
  intros Hempty Hload p1 p2.
  assert (Hp1 : p1 = {| cells := cells p;
                        imported := imported p ++ [k];
                        calls := calls p ++ [(k, Returned (Rejected e))] |}).
  { subst p1. by rewrite use_empty, Hload. }
  assert (Hsnoc : forall q, importCount k (use importBinding k q)
                            = match instance k (cells q) with
                              | Some _ => importCount k q
                              | None => S (importCount k q)
                              end).
  { intros q. destruct (instance k (cells q)) as [b|] eqn:Hq.
    - by rewrite (use_filled _ _ _ Hq).
    - rewrite use_empty by done.
      destruct (importBinding k (importCount k q)); unfold importCount; simpl;
        rewrite filter_app, length_app, filter_cons_True by done; simpl; lia. }
  assert (Hcount : importCount k p1 = S (importCount k p)).
  { subst p1. by rewrite Hsnoc, Hempty. }
  assert (Hempty1 : instance k (cells p1) = None) by (by rewrite Hp1).
  split; [rewrite Hp1; apply outcome_snoc|].
  split; [by rewrite Hp1|].
  split; [done|].
  split; [subst p2; by rewrite Hsnoc, Hempty1, Hcount|].
  intros b Hb Hinit. subst p2.
  rewrite use_empty, Hcount, Hb, Hinit by done.
  split; [|apply instance_setInstance_eq].
  destruct (awaitsInitWasm k); apply outcome_snoc.
Qed.

End InstancesFacts.

(** Witness of [first_use_initialises_once]: [useResvg] at the start of the
    process; two more calls arrive while the first still awaits the wasm
    initialisation. *)
Lemma first_use_initialises_once_witness :
  let b := {| Instances.initWasmPromise := Fulfilled (); Instances.engine := 1 |} in
  let p1 := Instances.run Instances.cachingLoader
              [Instances.Call Instances.Resvg; Instances.Resume 0] Instances.start in
  let q := Instances.run Instances.cachingLoader
             [Instances.Call Instances.Resvg; Instances.Call Instances.Resvg;
              Instances.Resume 1; Instances.Resume 0; Instances.Resume 2] p1 in
  Instances.outcome 0 (Instances.useResvg Instances.cachingLoader Instances.start)
  = Some (Fulfilled 1)
  /\ Instances.importCount Instances.Resvg p1 = 1
  /\ Instances.importCount Instances.Resvg q = Instances.importCount Instances.Resvg p1
  /\ Instances.instance Instances.Resvg (Instances.cells q) = Some b
  /\ forall i r, 0 <= i ->
       Instances.calls q !! i = Some (Instances.Resvg, Instances.Returned r) ->
       r = Fulfilled 1.
Proof.
  apply (first_use_initialises_once Instances.cachingLoader Instances.Resvg
           {| Instances.initWasmPromise := Fulfilled (); Instances.engine := 1 |}
           Instances.start
           [Instances.Call Instances.Resvg; Instances.Call Instances.Resvg;
            Instances.Resume 1; Instances.Resume 0; Instances.Resume 2]).
  - reflexivity.
  - intros [|i] n; discriminate.
  - reflexivity.
  - reflexivity.
Defined.

(** C3 (as stated) fails: two calls of [useResvg] issued before the first
    import has settled both find the cell empty and both evaluate [import()];
    the module is requested twice. *)
Lemma concurrent_calls_import_twice :
  Instances.importCount Instances.Resvg
    (Instances.run Instances.cachingLoader
       [Instances.Call Instances.Resvg; Instances.Call Instances.Resvg;
        Instances.Resume 0; Instances.Resume 1;
        Instances.Resume 0; Instances.Resume 1]
       Instances.start) = 2.
Proof. reflexivity. Qed.

(** Witness of [failed_import_is_not_cached]: the first import of resvg
    rejects, the second resolves. *)
Lemma failed_import_is_not_cached_witness :
  let p1 := Instances.useResvg Instances.flakyLoader Instances.start in
  let p2 := Instances.useResvg Instances.flakyLoader p1 in
  Instances.outcome 0 p1 = Some (Rejected "Cannot find module")
  /\ Instances.cells p1 = Instances.cells Instances.start
  /\ Instances.importCount Instances.Resvg p1 = 1
  /\ Instances.importCount Instances.Resvg p2 = 2
  /\ forall b, Instances.flakyLoader Instances.Resvg 1 = Fulfilled b ->
       Instances.initWasmPromise b = Fulfilled () ->
       Instances.outcome 1 p2 = Some (Fulfilled (Instances.engine b))
       /\ Instances.instance Instances.Resvg (Instances.cells p2) = Some b.
Proof.
  apply (failed_import_is_not_cached Instances.flakyLoader Instances.Resvg
           Instances.start "Cannot find module").
  - reflexivity.
  - reflexivity.
Defined.

(** ** The setup monad *)

Section SetupMFacts.

Import SetupM.

Context {C : Type}.

Lemma Quiet_ret {A : Type} (P : Effect -> Prop) (a : A) : Quiet (C:=C) P (ret a).
Proof. intros c. constructor. Qed.

Lemma Quiet_getConfig (P : Effect -> Prop) : Quiet (C:=C) P getConfig.
Proof. intros c. constructor. Qed.

Lemma Quiet_setConfig (P : Effect -> Prop) (c' : C) : Quiet P (setConfig c').
Proof. intros c. constructor. Qed.

Lemma Quiet_emit (P : Effect -> Prop) (e : Effect) : P e -> Quiet (C:=C) P (emit e).
Proof. intros He c. by repeat constructor. Qed.

Lemma Quiet_bind {A B : Type} (P : Effect -> Prop) (m : M C A) (k : A -> M C B) :
  Quiet P m -> (forall a, Quiet P (k a)) -> Quiet P (bind m k).
Proof. intros Hm Hk c. simpl. apply Forall_app. split; [apply Hm|apply Hk]. Qed.

Lemma Quiet_when (P : Effect -> Prop) (b : bool) (m : M C unit) :
  Quiet P m -> Quiet P (when b m).
Proof. intros Hm. destruct b; [done|apply Quiet_ret]. Qed.

Lemma Quiet_forEach {A : Type} (P : Effect -> Prop) (xs : list A) (f : A -> M C unit) :
  (forall x, Quiet P (f x)) -> Quiet P (forEach xs f).
Proof.
  intros Hf. induction xs as [|x xs IH]; [apply Quiet_ret|].
  simpl. by apply Quiet_bind.
Qed.

Lemma Quiet_mapM {A B : Type} (P : Effect -> Prop) (f : A -> M C B) (xs : list A) :
  (forall x, Quiet P (f x)) -> Quiet P (mapM f xs).
Proof.
  intros Hf. induction xs as [|x xs IH]; [apply Quiet_ret|].
  simpl. apply Quiet_bind; [done|]. intros y.
  apply Quiet_bind; [done|]. intros ys. apply Quiet_ret.
Qed.

(** A callback that leaves the configuration alone is mapped element by
    element. *)
Lemma mapM_pure {A B : Type} (f : A -> M C B) (xs : list A) (c : C) :
  (forall x, config (f x c) = c) ->
  config (mapM f xs c) = c
  /\ value (mapM f xs c) = map (fun x => value (f x c)) xs
  /\ effects (mapM f xs c) = flat_map (fun x => effects (f x c)) xs.
Proof.
  intros Hf. induction xs as [|x xs (IHc & IHv & IHe)]; [done|].
  simpl. rewrite !Hf, IHc, IHv, IHe. by rewrite app_nil_r.
Qed.

End SetupMFacts.

Lemma In_filterBoolean {A : Type} (y : A) (xs : list (option A)) :
  In y (filterBoolean xs) <-> In (Some y) xs.
Proof.
  unfold filterBoolean. induction xs as [|[x|] xs IH]; simpl; [done| |].
  - rewrite IH. split; intros [H|H]; auto; left; congruence.
  - rewrite IH. split; [auto|]. by intros [H|H].
Qed.

(** Closes [Quiet P m] for a computation written with the combinators. *)
Ltac quiet :=
  repeat first
    [ apply Quiet_ret
    | apply Quiet_getConfig
    | apply Quiet_setConfig
    | apply Quiet_emit; done
    | apply Quiet_when
    | apply Quiet_forEach; intros ?
    | apply Quiet_mapM; intros ?
    | apply Quiet_bind; [|intros ?]
    | match goal with
      | |- SetupM.Quiet _ (if ?b then _ else _) => destruct b
      | |- SetupM.Quiet _ (match ?x with _ => _ end) => destruct x
      end
    | progress cbv zeta ].

(** ** [setup] of [src/module.ts], stage by stage *)

Section CurrentFacts.

Import SetupM.

Variable host : Host.
Variable nuxt : NuxtOptions.


Lemma stackblitzFont_config (f : InputFontConfig) (c : Current.ModuleOptions) :
  config (Current.stackblitzFont f c) = c.
Proof. unfold Current.stackblitzFont. destruct f; repeat case_match; reflexivity. Qed.

Lemma resolveSharp_config (p : string) (tc : TargetCompatibility) (c : Current.ModuleOptions) :
  exists e k, config (Current.resolveSharp host p tc c)
              = Current.setCompatibility k (Current.setExtension e c).
Proof.
  unfold Current.resolveSharp, Current.mergeCompatibility. cbn.
  repeat case_match; cbn; try (by repeat eexists).
  all: eexists _, (Current.compatibility c); by destruct c.
Qed.

Lemma resolveChromium_config (tc : TargetCompatibility) (c : Current.ModuleOptions) :
  exists k, config (Current.resolveChromium host nuxt tc c) = Current.setCompatibility k c.
Proof.
  unfold Current.resolveChromium, Current.mergeCompatibility. cbn.
  repeat case_match; cbn; try (by eexists).
  all: exists (Current.compatibility c); by destruct c.
Qed.

Lemma resolveFonts_config (p : string) (c : Current.ModuleOptions) :
  exists fs, config (Current.resolveFonts p c) = Current.setFonts fs c.
Proof.
  unfold Current.resolveFonts, when. cbn.
  destruct (Nat.eqb _ _), (String.eqb _ _); cbn;
    rewrite ?(proj1 (mapM_pure _ _ _ (fun f => stackblitzFont_config f _)));
    try (by eexists).
  exists (Current.fonts c); by destruct c.
Qed.

Lemma addRoutes_config (c : Current.ModuleOptions) :
  config (Current.addRoutes nuxt c) = c.
Proof. unfold Current.addRoutes, when. cbn. by case_match. Qed.

Lemma addRuntime_config (c : Current.ModuleOptions) : config (Current.addRuntime c) = c.
Proof. reflexivity. Qed.

Lemma addBuildHandlers_config (c : Current.ModuleOptions) :
  config (Current.addBuildHandlers nuxt c) = c.
Proof. unfold Current.addBuildHandlers, when. cbn. by repeat case_match. Qed.

Lemma resolveSharp_quiet (p : string) (tc : TargetCompatibility) :
  Quiet notServerHandler (Current.resolveSharp host p tc).
Proof. unfold Current.resolveSharp, Current.mergeCompatibility. quiet. Qed.

Lemma resolveChromium_quiet (tc : TargetCompatibility) :
  Quiet notServerHandler (Current.resolveChromium host nuxt tc).
Proof. unfold Current.resolveChromium, Current.mergeCompatibility. quiet. Qed.

Lemma resolveFonts_quiet (p : string) :
  Quiet notServerHandler (Current.resolveFonts p).
Proof. unfold Current.resolveFonts, Current.stackblitzFont. quiet. Qed.

Lemma addRuntime_quiet : Quiet notServerHandler (@Current.addRuntime).
Proof. unfold Current.addRuntime. quiet. Qed.

Lemma addBuildHandlers_quiet : Quiet notServerHandler (Current.addBuildHandlers nuxt).
Proof. unfold Current.addBuildHandlers. quiet. Qed.


Lemma setup_early (c : Current.ModuleOptions) :
  Current.enabled c = false \/ (Current.enabled c = true /\ ssr nuxt = false) ->
  fst (Current.setup host nuxt c) = c
  /\ exists msg,
       snd (Current.setup host nuxt c)
       = [SetLoggerLevel (if Current.debug c || optDebug nuxt then 4 else 3); LogDebug msg]
       \/ snd (Current.setup host nuxt c)
          = [SetLoggerLevel (if Current.debug c || optDebug nuxt then 4 else 3); LogWarn msg].
Proof.
  intros [He|[He Hs]]; unfold Current.setup, exec; cbn; rewrite He; cbn.
  - eauto.
  - rewrite Hs. cbn. eauto.
Qed.

Lemma setup_proceeds (c : Current.ModuleOptions) :
  Current.enabled c = true -> ssr nuxt = true ->
  let p := resolveNitroPreset host (nitro nuxt) in
  let tc := getPresetNitroPresetCompatibility host p in
  let c1 := config (Current.resolveSharp host p tc c) in
  let c2 := config (Current.resolveChromium host nuxt tc c1) in
  let c3 := config (Current.resolveFonts p c2) in
  Current.setup host nuxt c =
    (c3,
     [SetLoggerLevel (if Current.debug c || optDebug nuxt then 4 else 3)]
     ++ effects (Current.resolveSharp host p tc c)
     ++ effects (Current.resolveChromium host nuxt tc c1)
     ++ [InstallNuxtSiteConfig]
     ++ (if hasNuxtModule host "@nuxt/content"
         then [AddServerPlugin "./runtime/nitro/plugins/nuxt-content"] else [])
     ++ effects (Current.resolveFonts p c2)
     ++ effects (Current.addRoutes nuxt c3)
     ++ effects (Current.addRuntime c3)
     ++ [Hook "modules:done"]
     ++ effects (Current.addBuildHandlers nuxt c3))%list.
Proof.
  intros He Hs p tc c1 c2 c3. subst p tc c1 c2 c3. unfold Current.setup, exec.
  rewrite He, Hs. cbn [negb andb].
  cbn [bind emit SetupM.config SetupM.effects SetupM.value].
  assert (Hw : forall c' : Current.ModuleOptions,
             config (when (hasNuxtModule host "@nuxt/content")
                  (emit (AddServerPlugin "./runtime/nitro/plugins/nuxt-content")) c') = c'
               /\ effects (when (hasNuxtModule host "@nuxt/content")
                  (emit (AddServerPlugin "./runtime/nitro/plugins/nuxt-content")) c')
                  = if hasNuxtModule host "@nuxt/content"
                    then [AddServerPlugin "./runtime/nitro/plugins/nuxt-content"] else []).
  { intros c'. by destruct (hasNuxtModule host _). }
  rewrite !(proj1 (Hw _)), !(proj2 (Hw _)).
  rewrite !addRoutes_config, !addRuntime_config, !addBuildHandlers_config.
  reflexivity.
Qed.


Lemma setup_keeps_debug (c : Current.ModuleOptions) :
  let p := resolveNitroPreset host (nitro nuxt) in
  let tc := getPresetNitroPresetCompatibility host p in
  let c1 := config (Current.resolveSharp host p tc c) in
  let c2 := config (Current.resolveChromium host nuxt tc c1) in
  let c3 := config (Current.resolveFonts p c2) in
  Current.debug c3 = Current.debug c.
Proof.
  intros p tc c1 c2 c3. subst c3.
  destruct (resolveFonts_config p c2) as (fs & ->). subst c2.
  destruct (resolveChromium_config tc c1) as (k2 & ->). subst c1.
  by destruct (resolveSharp_config p tc c) as (e & k & ->).
Qed.

Lemma addRoutes_effects (c : Current.ModuleOptions) :
  effects (Current.addRoutes nuxt c)
  = ([SetOption "experimental.componentIslands";
     AddServerHandler "/__og-image__/font/**"
       "./runtime/server/routes/__og-image__/font-[name]-[weight].[extension]"]
    ++ (if Current.debug c || optDev nuxt
        then [AddServerHandler "/__og-image__/debug.json"
                "./runtime/server/routes/__og-image__/debug.json"]
        else [])
    ++ [AddServerHandler "/__og-image__/image/**"
          "./runtime/server/routes/__og-image__/image"])%list.
Proof. unfold Current.addRoutes, when. cbn. by destruct (_ || _). Qed.

Lemma current_debug_handler_iff (c : Current.ModuleOptions) :
  (exists handler,
     In (AddServerHandler "/__og-image__/debug.json" handler)
        (snd (Current.setup host nuxt c)))
  <-> Current.enabled c = true /\ ssr nuxt = true
      /\ (Current.debug c = true \/ optDev nuxt = true).
Proof.
  destruct (Current.enabled c) eqn:He; [destruct (ssr nuxt) eqn:Hs|].
  - rewrite (setup_proceeds c He Hs). cbn [snd].
    assert (Hq : forall (m : M Current.ModuleOptions unit) c' handler,
               Quiet notServerHandler m ->
               ~ In (AddServerHandler "/__og-image__/debug.json" handler) (effects (m c'))).
    { intros m c' handler Hm Hin. specialize (Hm c').
      rewrite Forall_forall in Hm. apply list_elem_of_In in Hin.
      by destruct (Hm _ Hin "/__og-image__/debug.json" handler). }
    pose proof (setup_keeps_debug c) as Hd. cbv zeta in Hd.
    split.
    + intros (handler & Hin). split; [done|]. split; [done|].
      rewrite !in_app_iff in Hin.
      destruct Hin as [Hin|[Hin|[Hin|[Hin|[Hin|[Hin|[Hin|[Hin|[Hin|Hin]]]]]]]]].
      * by destruct Hin.
      * by apply Hq in Hin; [|apply resolveSharp_quiet].
      * by apply Hq in Hin; [|apply resolveChromium_quiet].
      * by destruct Hin.
      * destruct (hasNuxtModule host _); [by destruct Hin|done].
      * by apply Hq in Hin; [|apply resolveFonts_quiet].
      * rewrite addRoutes_effects, Hd in Hin. apply orb_true_iff.
        destruct (Current.debug c || optDev nuxt); [done|].
        cbn in Hin. destruct Hin as [?|[?|[?|[]]]]; done.
      * by apply Hq in Hin; [|apply addRuntime_quiet].
      * by destruct Hin.
      * by apply Hq in Hin; [|apply addBuildHandlers_quiet].
    + intros (_ & _ & Hd'%orb_true_iff).
      exists "./runtime/server/routes/__og-image__/debug.json".
      rewrite !in_app_iff. do 6 right. left.
      rewrite addRoutes_effects, Hd, Hd'. cbn. auto.
  - destruct (setup_early c) as (_ & msg & [->| ->]); [auto| |];
      (split; [intros (handler & [?|[?|[]]]); done|intros (_ & ? & _); done]).
  - destruct (setup_early c) as (_ & msg & [->| ->]); [auto| |];
      (split; [intros (handler & [?|[?|[]]]); done|intros (? & _); done]).
Qed.


Lemma flags_noFlags_r (o : EngineFlags) : Defu.flags o noFlags = o.
Proof. by destruct o as [[] [] [] []]. Qed.

Lemma flags_noFlags_l (d : EngineFlags) : Defu.flags noFlags d = d.
Proof. by destruct d. Qed.

Lemma phaseFlags_defu (ph : Phase) (object : CompatibilityConfig)
    (defaults : option CompatibilityConfig) :
  phaseFlags ph (Defu.defu object defaults)
  = Defu.flags (phaseFlags ph (Some object)) (phaseFlags ph defaults).
Proof.
  destruct defaults as [[dr dd dp]|], object as [or od op], ph; simpl;
    rewrite ?flags_noFlags_r; try reflexivity.
  - destruct or, dr; simpl; by rewrite ?flags_noFlags_r, ?flags_noFlags_l.
  - destruct od, dd; simpl; by rewrite ?flags_noFlags_r, ?flags_noFlags_l.
  - destruct op, dp; simpl; by rewrite ?flags_noFlags_r, ?flags_noFlags_l.
Qed.

Lemma resolveSharp_flags (p : string) (tc : TargetCompatibility)
    (c : Current.ModuleOptions) (ph : Phase) :
  let k := Current.compatibility c in
  let k' := Current.compatibility (config (Current.resolveSharp host p tc c)) in
  chromium (phaseFlags ph k') = chromium (phaseFlags ph k)
  /\ (sharp (phaseFlags ph k') = sharp (phaseFlags ph k)
      \/ sharp (phaseFlags ph k') = Some false).
Proof.
  unfold Current.resolveSharp, Current.mergeCompatibility. cbn.
  repeat case_match; cbn; rewrite ?phaseFlags_defu; destruct ph; cbn; auto.
Qed.

Lemma resolveChromium_flags (tc : TargetCompatibility) (c : Current.ModuleOptions)
    (ph : Phase) :
  let k := Current.compatibility c in
  let k' := Current.compatibility (config (Current.resolveChromium host nuxt tc c)) in
  let chrome := Js.truthy (getFirstInstallation host) in
  let playwright := Js.truthy (tryResolveModule host "playwright") in
  sharp (phaseFlags ph k') = sharp (phaseFlags ph k)
  /\ (chromium (phaseFlags ph k') = chromium (phaseFlags ph k)
      \/ chromium (phaseFlags ph k') = Some false
      \/ (chromium (phaseFlags ph k') = Some true
          /\ chrome = true /\ (ph = Dev \/ ph = Prerender))
      \/ (chromium (phaseFlags ph k') = Some true
          /\ chrome = false /\ playwright = true
          /\ bindingsChromium (bindings tc) = true)).
Proof.
  unfold Current.resolveChromium, Current.mergeCompatibility. cbn.
  destruct (Js.truthy (getFirstInstallation host)),
    (Js.truthy (tryResolveModule host "playwright")),
    (bindingsChromium (bindings tc)); cbn;
    repeat case_match; cbn; rewrite ?phaseFlags_defu; destruct ph; cbn;
    intuition congruence.
Qed.

End CurrentFacts.

(** ** [setup] of the earlier revision, stage by stage *)

Section EarlierFacts.

Import SetupM.

Variable host : Host.
Variable nuxt : NuxtOptions.

Lemma earlier_localFont_config (f : InputFontConfig) (c : Earlier.ModuleOptions) :
  config (Earlier.localFont f c) = c.
Proof. unfold Earlier.localFont. destruct f; repeat case_match; reflexivity. Qed.

Lemma earlier_resolveSharp_config (tc : TargetCompatibility) (c : Earlier.ModuleOptions) :
  exists e, config (Earlier.resolveSharp tc c) = Earlier.setExtension e c.
Proof.
  unfold Earlier.resolveSharp, when. cbn. repeat case_match; cbn; by eexists.
Qed.

Lemma earlier_resolveChromium_config (tc : TargetCompatibility) (c : Earlier.ModuleOptions) :
  config (Earlier.resolveChromium tc c)
  = Earlier.setRuntimeChromium
      (Earlier.runtimeChromium c && bindingsChromium (bindings tc)) c.
Proof.
  unfold Earlier.resolveChromium, when. cbn.
  destruct c as [? ? ? ? [] ?], (bindingsChromium (bindings tc)); reflexivity.
Qed.

Lemma earlier_resolveFonts_config (p : string) (c : Earlier.ModuleOptions) :
  exists fs, config (Earlier.resolveFonts p c) = Earlier.setFonts fs c.
Proof.
  unfold Earlier.resolveFonts, when. cbn.
  destruct (String.eqb _ _), (Nat.eqb _ _); cbn;
    rewrite ?(proj1 (mapM_pure _ _ _ (fun f => earlier_localFont_config f _)));
    try (by eexists).
  exists (Earlier.fonts c); by destruct c.
Qed.

Lemma earlier_addRoutes_config (c : Earlier.ModuleOptions) :
  config (Earlier.addRoutes nuxt c) = c.
Proof. unfold Earlier.addRoutes, when. cbn. by case_match. Qed.

Lemma earlier_addBuildHandlers_config (c : Earlier.ModuleOptions) :
  config (Earlier.addBuildHandlers nuxt c) = c.
Proof. unfold Earlier.addBuildHandlers, when. cbn. by repeat case_match. Qed.

Lemma earlier_setup_early (c : Earlier.ModuleOptions) :
  Earlier.enabled c = false \/ (Earlier.enabled c = true /\ ssr nuxt = false) ->
  fst (Earlier.setup host nuxt c) = c
  /\ exists msg,
       snd (Earlier.setup host nuxt c)
       = [SetLoggerLevel (if Earlier.debug c || optDebug nuxt then 4 else 3); LogDebug msg]
       \/ snd (Earlier.setup host nuxt c)
          = [SetLoggerLevel (if Earlier.debug c || optDebug nuxt then 4 else 3); LogWarn msg].
Proof.
  intros [He|[He Hs]]; unfold Earlier.setup, exec; cbn; rewrite He; cbn.
  - eauto.
  - rewrite Hs. cbn. eauto.
Qed.

Lemma earlier_setup_proceeds (c : Earlier.ModuleOptions) :
  Earlier.enabled c = true -> ssr nuxt = true ->
  let p := resolveNitroPreset host (nitro nuxt) in
  let tc := getPresetNitroPresetCompatibility host p in
  let c1 := config (Earlier.resolveSharp tc c) in
  let c2 := config (Earlier.resolveChromium tc c1) in
  let c3 := config (Earlier.resolveFonts p c2) in
  Earlier.setup host nuxt c =
    (c3,
     [SetLoggerLevel (if Earlier.debug c || optDebug nuxt then 4 else 3)]
     ++ effects (Earlier.resolveSharp tc c)
     ++ effects (Earlier.resolveChromium tc c1)
     ++ [InstallNuxtSiteConfig]
     ++ (if hasNuxtModule host "@nuxt/content"
         then [AddServerPlugin "./runtime/nitro/plugins/nuxt-content"] else [])
     ++ effects (Earlier.resolveFonts p c2)
     ++ effects (Earlier.addRoutes nuxt c3)
     ++ effects (Earlier.addRuntime c3)
     ++ [Hook "modules:done"]
     ++ effects (Earlier.addBuildHandlers nuxt c3))%list.
Proof.
  intros He Hs p tc c1 c2 c3. subst p tc c1 c2 c3. unfold Earlier.setup, exec.
  rewrite He, Hs. cbn [negb andb].
  cbn [bind emit SetupM.config SetupM.effects SetupM.value].
  assert (Hw : forall c' : Earlier.ModuleOptions,
             config (when (hasNuxtModule host "@nuxt/content")
                  (emit (AddServerPlugin "./runtime/nitro/plugins/nuxt-content")) c') = c'
               /\ effects (when (hasNuxtModule host "@nuxt/content")
                  (emit (AddServerPlugin "./runtime/nitro/plugins/nuxt-content")) c')
                  = if hasNuxtModule host "@nuxt/content"
                    then [AddServerPlugin "./runtime/nitro/plugins/nuxt-content"] else []).
  { intros c'. by destruct (hasNuxtModule host _). }
  rewrite !(proj1 (Hw _)), !(proj2 (Hw _)).
  rewrite !earlier_addRoutes_config, !earlier_addBuildHandlers_config.
  reflexivity.
Qed.

Lemma earlier_setup_runtimeChromium (c : Earlier.ModuleOptions) :
  let tc := getPresetNitroPresetCompatibility host (resolveNitroPreset host (nitro nuxt)) in
  Earlier.runtimeChromium (fst (Earlier.setup host nuxt c))
  = Earlier.runtimeChromium c
    && (negb (Earlier.enabled c && ssr nuxt) || bindingsChromium (bindings tc)).
Proof.
  intros tc. destruct (Earlier.enabled c) eqn:He; [destruct (ssr nuxt) eqn:Hs|].
  - rewrite (earlier_setup_proceeds c He Hs). cbn [fst andb negb orb]. fold tc.
    destruct (earlier_resolveFonts_config (resolveNitroPreset host (nitro nuxt))
                (config (Earlier.resolveChromium tc (config (Earlier.resolveSharp tc c)))))
      as (fs & ->).
    rewrite earlier_resolveChromium_config.
    by destruct (earlier_resolveSharp_config tc c) as (e & ->).
  - rewrite (proj1 (earlier_setup_early c (or_intror (conj He Hs)))).
    cbn. by rewrite andb_true_r.
  - rewrite (proj1 (earlier_setup_early c (or_introl He))).
    cbn. by rewrite andb_true_r.
Qed.

End EarlierFacts.

(** ** Properties of [setup] *)

Section SetupProperties.

Import SetupM.

Variable host : Host.
Variable nuxt : NuxtOptions.

Lemma setup_compatibility (c : Current.ModuleOptions) :
  Current.enabled c = true -> ssr nuxt = true ->
  let p := resolveNitroPreset host (nitro nuxt) in
  let tc := getPresetNitroPresetCompatibility host p in
  let c1 := config (Current.resolveSharp host p tc c) in
  Current.compatibility (fst (Current.setup host nuxt c))
  = Current.compatibility (config (Current.resolveChromium host nuxt tc c1)).
Proof.
  intros He Hs p tc c1. rewrite (setup_proceeds host nuxt c He Hs). cbn [fst].
  fold p tc. fold c1.
  by destruct (resolveFonts_config p (config (Current.resolveChromium host nuxt tc c1)))
    as (fs & ->).
Qed.

(** C1 (as amended): in every phase [setup] leaves the user's sharp flag or
    sets it to [false]; it leaves the user's chromium flag, or sets it to
    [false], or sets it to [true] for the dev and prerender phases because
    Chrome is installed locally (whatever the preset table says), or sets it to
    [true] because playwright is importable, no local Chrome exists and the
    preset table marks chromium available.  The earlier revision keeps
    [runtimeChromium] only if the preset table marks chromium available. *)
Theorem probes_narrow_except_local_chrome (c : Current.ModuleOptions)
    (c0 : Earlier.ModuleOptions) (ph : Phase) :
  let tc := getPresetNitroPresetCompatibility host (resolveNitroPreset host (nitro nuxt)) in
  let chrome := Js.truthy (getFirstInstallation host) in
  let playwright := Js.truthy (tryResolveModule host "playwright") in
  let before := phaseFlags ph (Current.compatibility c) in
  let after := phaseFlags ph (Current.compatibility (fst (Current.setup host nuxt c))) in
  (sharp after = sharp before \/ sharp after = Some false)
  /\ (chromium after = chromium before
      \/ chromium after = Some false
      \/ (chromium after = Some true /\ chrome = true /\ (ph = Dev \/ ph = Prerender))
      \/ (chromium after = Some true /\ chrome = false /\ playwright = true
          /\ bindingsChromium (bindings tc) = true))
  /\ Earlier.runtimeChromium (fst (Earlier.setup host nuxt c0))
     = Earlier.runtimeChromium c0
       && (negb (Earlier.enabled c0 && ssr nuxt) || bindingsChromium (bindings tc)).
Proof.
  intros tc chrome playwright before after.
  split; [|split; [|apply earlier_setup_runtimeChromium]].
  - subst after before.
    destruct (Current.enabled c) eqn:He; [destruct (ssr nuxt) eqn:Hs|].
    + rewrite (setup_compatibility c He Hs).
      pose proof (resolveSharp_flags host (resolveNitroPreset host (nitro nuxt)) tc c ph)
        as [_ H1].
      pose proof (resolveChromium_flags host nuxt tc
                    (config (Current.resolveSharp host
                               (resolveNitroPreset host (nitro nuxt)) tc c)) ph)
        as [H2 _].
      cbv zeta in H1, H2. fold tc. rewrite H2. exact H1.
    + rewrite (proj1 (setup_early host nuxt c (or_intror (conj He Hs)))). auto.
    + rewrite (proj1 (setup_early host nuxt c (or_introl He))). auto.
  - subst after before.
    destruct (Current.enabled c) eqn:He; [destruct (ssr nuxt) eqn:Hs|].
    + rewrite (setup_compatibility c He Hs).
      pose proof (resolveSharp_flags host (resolveNitroPreset host (nitro nuxt)) tc c ph)
        as [H1 _].
      pose proof (resolveChromium_flags host nuxt tc
                    (config (Current.resolveSharp host
                               (resolveNitroPreset host (nitro nuxt)) tc c)) ph)
        as [_ H2].
      cbv zeta in H1, H2. fold tc. rewrite <- H1. exact H2.
    + rewrite (proj1 (setup_early host nuxt c (or_intror (conj He Hs)))). auto.
    + rewrite (proj1 (setup_early host nuxt c (or_introl He))). auto.
Qed.






Lemma setup_defaults (c : Current.ModuleOptions) :
  Current.enabled c = true -> ssr nuxt = true ->
  let p := resolveNitroPreset host (nitro nuxt) in
  let tc := getPresetNitroPresetCompatibility host p in
  Current.defaults (fst (Current.setup host nuxt c))
  = Current.defaults (config (Current.resolveSharp host p tc c)).
Proof.
  intros He Hs p tc. rewrite (setup_proceeds host nuxt c He Hs). cbn [fst]. fold p tc.
  destruct (resolveFonts_config p
              (config (Current.resolveChromium host nuxt tc
                         (config (Current.resolveSharp host p tc c))))) as (fs & ->).
  by destruct (resolveChromium_config host nuxt tc
                 (config (Current.resolveSharp host p tc c))) as (k & ->).
Qed.

Lemma earlier_setup_defaults (c : Earlier.ModuleOptions) :
  Earlier.enabled c = true -> ssr nuxt = true ->
  let p := resolveNitroPreset host (nitro nuxt) in
  let tc := getPresetNitroPresetCompatibility host p in
  Earlier.defaults (fst (Earlier.setup host nuxt c))
  = Earlier.defaults (config (Earlier.resolveSharp tc c)).
Proof.
  intros He Hs p tc. rewrite (earlier_setup_proceeds host nuxt c He Hs). cbn [fst].
  fold p tc.
  destruct (earlier_resolveFonts_config p
              (config (Earlier.resolveChromium tc
                         (config (Earlier.resolveSharp tc c))))) as (fs & ->).
  by rewrite earlier_resolveChromium_config.
Qed.





(** *** Fonts *)

Lemma stackblitzFont_cases (f : InputFontConfig) (c : Current.ModuleOptions) :
  let r := Current.stackblitzFont f c in
  match f with
  | Shorthand s =>
      if Js.startsWith "Inter:" s then
        value r = Some (Descriptor (Current.bundledInter (WeightString <$> (Js.split ":" s !! 1))))
        /\ effects r = []
      else value r = None /\ effects r = [LogWarn (Current.skippedMessage s)]
  | Descriptor d =>
      if lacksPathAndKey d then
        value r = None
        /\ effects r = [LogWarn (Current.skippedMessage (name d ++ ":" ++ showWeight (weight d)))]
      else value r = Some f /\ effects r = []
  end.
Proof.
  unfold Current.stackblitzFont. destruct f as [s|d]; cbv zeta.
  - destruct (Js.startsWith "Inter:" s); split; reflexivity.
  - destruct (lacksPathAndKey d); split; reflexivity.
Qed.

Lemma stackblitzFont_kept (f g : InputFontConfig) (c : Current.ModuleOptions) :
  value (Current.stackblitzFont f c) = Some g ->
  exists d, g = Descriptor d /\ lacksPathAndKey d = false.
Proof.
  pose proof (stackblitzFont_cases f c) as H. cbv zeta in H.
  destruct f as [s|d].
  - destruct (Js.startsWith "Inter:" s); destruct H as [-> _]; [|done].
    intros [= <-]. eexists. split; reflexivity.
  - destruct (lacksPathAndKey d) eqn:Hd; destruct H as [-> _]; [done|].
    intros [= <-]. eexists. split; [reflexivity|done].
Qed.

Lemma resolveFonts_stackblitz (c : Current.ModuleOptions) :
  Current.fonts c <> [] ->
  let r := Current.resolveFonts "stackblitz" c in
  Current.fonts (config r)
  = filterBoolean (map (fun f => value (Current.stackblitzFont f c)) (Current.fonts c))
  /\ effects r = (flat_map (fun f => effects (Current.stackblitzFont f c)) (Current.fonts c)
                  ++ [Hook "nitro:config"])%list.
Proof.
  intros Hne r. subst r. unfold Current.resolveFonts, when.
  destruct (Current.fonts c) as [|f fs] eqn:Hf; [done|].
  cbn [bind getConfig setConfig emit ret SetupM.value SetupM.config SetupM.effects
         length Nat.eqb String.eqb Ascii.eqb Bool.eqb].
  rewrite Hf.
  cbn [ret SetupM.value SetupM.config SetupM.effects length Nat.eqb app].
  rewrite Hf.
  destruct (mapM_pure Current.stackblitzFont (f :: fs) c
              (fun x => stackblitzFont_config x c)) as (_ & -> & ->).
  done.
Qed.

Lemma setup_fonts (c : Current.ModuleOptions) :
  Current.enabled c = true -> ssr nuxt = true ->
  exists c2, Current.fonts c2 = Current.fonts c
    /\ fst (Current.setup host nuxt c)
       = config (Current.resolveFonts (resolveNitroPreset host (nitro nuxt)) c2)
    /\ forall e, In e (effects (Current.resolveFonts (resolveNitroPreset host (nitro nuxt)) c2)) ->
         In e (snd (Current.setup host nuxt c)).
Proof.
  intros He Hs. rewrite (setup_proceeds host nuxt c He Hs). cbn [fst snd].
  eexists. split; [|split; [reflexivity|]].
  - destruct (resolveChromium_config host nuxt
                (getPresetNitroPresetCompatibility host (resolveNitroPreset host (nitro nuxt)))
                (config (Current.resolveSharp host (resolveNitroPreset host (nitro nuxt))
                           (getPresetNitroPresetCompatibility host
                              (resolveNitroPreset host (nitro nuxt))) c)))
      as (k & ->).
    by destruct (resolveSharp_config host (resolveNitroPreset host (nitro nuxt))
                   (getPresetNitroPresetCompatibility host
                      (resolveNitroPreset host (nitro nuxt))) c) as (e & k' & ->).
  - intros e Hin. rewrite !in_app_iff. do 5 right. by left.
Qed.



Lemma resolveFonts_elsewhere (p : string) (c : Current.ModuleOptions) :
  p <> "stackblitz" ->
  Current.fonts (config (Current.resolveFonts p c))
  = match Current.fonts c with
    | [] => [Shorthand "Inter:400"; Shorthand "Inter:700"]
    | _ :: _ => Current.fonts c
    end.
Proof.
  intros Hp%String.eqb_neq. unfold Current.resolveFonts, when.
  cbn [bind getConfig SetupM.value SetupM.config]. rewrite Hp.
  destruct (Current.fonts c) eqn:Hf; cbn; by rewrite ?Hf.
Qed.

(** With no font configured, [setup] leaves the two Inter faces, on every
    target. *)
Lemma default_fonts_injected (c : Current.ModuleOptions) :
  Current.enabled c = true -> ssr nuxt = true ->
  Current.fonts c = [] ->
  Current.normalisedFonts (fst (Current.setup host nuxt c))
  = if String.eqb (resolveNitroPreset host (nitro nuxt)) "stackblitz" then
      [Current.bundledInter (Some (WeightString "400"));
       Current.bundledInter (Some (WeightString "700"))]
    else
      [{| name := "Inter"; weight := Some (WeightString "400"); path := None; key := None |};
       {| name := "Inter"; weight := Some (WeightString "700"); path := None; key := None |}].
Proof.
  intros He Hs Hf. destruct (setup_fonts c He Hs) as (c2 & Hf2 & -> & _).
  rewrite Hf in Hf2. unfold Current.normalisedFonts.
  destruct (String.eqb _ _) eqn:Hp.
  - apply String.eqb_eq in Hp. rewrite Hp.
    unfold Current.resolveFonts, when.
    cbn [bind getConfig setConfig SetupM.value SetupM.config]. rewrite Hf2. reflexivity.
  - apply String.eqb_neq in Hp. rewrite (resolveFonts_elsewhere _ _ Hp), Hf2. reflexivity.
Qed.

(** In the earlier revision nothing is injected unless the target is
    StackBlitz: an empty font list stays empty. *)
Lemma earlier_no_default_fonts (c : Earlier.ModuleOptions) :
  Earlier.enabled c = true -> ssr nuxt = true ->
  resolveNitroPreset host (nitro nuxt) <> "stackblitz" ->
  Earlier.fonts c = [] ->
  Earlier.fonts (fst (Earlier.setup host nuxt c)) = [].
Proof.
  intros He Hs Hp%String.eqb_neq Hf.
  rewrite (earlier_setup_proceeds host nuxt c He Hs). cbn [fst].
  rewrite earlier_resolveChromium_config.
  destruct (earlier_resolveSharp_config
              (getPresetNitroPresetCompatibility host (resolveNitroPreset host (nitro nuxt)))
              c) as (e & ->).
  unfold Earlier.resolveFonts.
  cbn [SetupM.bind SetupM.getConfig SetupM.value SetupM.config]. rewrite Hp.
  cbn. by rewrite Hf.
Qed.

(** *** Shorthand strings *)

Lemma split_colonFree (s : string) : Js.colonFree s = true -> Js.split ":" s = [s].
Proof.
  induction s as [|a s IH]; [done|]. simpl.
  intros [Ha Hs]%andb_true_iff. apply negb_true_iff in Ha. rewrite Ha, (IH Hs). done.
Qed.

Lemma split_shorthand (n w : string) :
  Js.colonFree n = true -> Js.colonFree w = true ->
  Js.split ":" (n ++ ":" ++ w) = [n; w].
Proof.
  intros Hn Hw. induction n as [|a n IH].
  - change ("" ++ ":" ++ w) with (String ":" w). simpl.
    by rewrite (split_colonFree w Hw).
  - change (String a n ++ ":" ++ w) with (String a (n ++ ":" ++ w)). simpl.
    simpl in Hn. apply andb_true_iff in Hn as [Ha Hn]. apply negb_true_iff in Ha.
    by rewrite Ha, (IH Hn).
Qed.

Lemma normaliseFont_shorthand (n w : string) :
  Js.colonFree n = true -> Js.colonFree w = true ->
  normaliseFont (Shorthand (n ++ ":" ++ w))
  = {| name := n; weight := Some (WeightString w); path := None; key := None |}.
Proof. intros Hn Hw. unfold normaliseFont. by rewrite (split_shorthand n w Hn Hw). Qed.

(** C7 (as amended): on a target other than StackBlitz, a shorthand
    [Name:weight] becomes the descriptor with that name and weight, no path and
    no key; in a build that is not [generate], its font route is pushed to the
    prerender routes. *)
Theorem shorthand_expands_without_key (c : Current.ModuleOptions) (n w : string) :
  Current.enabled c = true -> ssr nuxt = true ->
  resolveNitroPreset host (nitro nuxt) <> "stackblitz" ->
  Js.colonFree n = true -> Js.colonFree w = true ->
  In (Shorthand (n ++ ":" ++ w)) (Current.fonts c) ->
  let hook := Current.modulesDone host nuxt (fst (Current.setup host nuxt c)) in
  let font := {| name := n; weight := Some (WeightString w); path := None; key := None |} in
  In font (Current.rcFonts (Current.runtimeConfig hook))
  /\ (negb (_generate nuxt) && build nuxt = true ->
      In ("/__og-image__/font/" ++ n ++ "/" ++ w ++ ".ttf") (Current.pushedRoutes hook)).
Proof.
  intros He Hs Hp Hn Hw Hin hook font. subst hook.
  destruct (setup_fonts c He Hs) as (c2 & Hf & -> & _).
  assert (Hfonts : In font (Current.normalisedFonts
                              (config (Current.resolveFonts
                                         (resolveNitroPreset host (nitro nuxt)) c2)))).
  { unfold Current.normalisedFonts. rewrite (resolveFonts_elsewhere _ _ Hp), Hf.
    destruct (Current.fonts c) as [|f fs] eqn:Hc; [done|].
    apply in_map_iff. exists (Shorthand (n ++ ":" ++ w)).
    by rewrite (normaliseFont_shorthand n w Hn Hw). }
  split; [exact Hfonts|].
  intros Hb. unfold Current.modulesDone. cbn [Current.pushedRoutes]. rewrite Hb.
  apply in_map_iff. exists font. split; [reflexivity|].
  apply filter_In. by split.
Qed.

(** *** Early return *)

(** C10: when the module is disabled, or enabled without SSR, [setup] returns
    the configuration unchanged and its only effects are setting the logger
    level and one debug or warning message, in both revisions. *)
Theorem disabled_setup_registers_nothing (c : Current.ModuleOptions)
    (c0 : Earlier.ModuleOptions) :
  Current.enabled c = false \/ (Current.enabled c = true /\ ssr nuxt = false) ->
  Earlier.enabled c0 = Current.enabled c ->
  (fst (Current.setup host nuxt c) = c
   /\ exists msg,
        snd (Current.setup host nuxt c)
        = [SetLoggerLevel (if Current.debug c || optDebug nuxt then 4 else 3);
           LogDebug msg]
        \/ snd (Current.setup host nuxt c)
           = [SetLoggerLevel (if Current.debug c || optDebug nuxt then 4 else 3);
              LogWarn msg])
  /\ (fst (Earlier.setup host nuxt c0) = c0
      /\ exists msg,
           snd (Earlier.setup host nuxt c0)
           = [SetLoggerLevel (if Earlier.debug c0 || optDebug nuxt then 4 else 3);
              LogDebug msg]
           \/ snd (Earlier.setup host nuxt c0)
              = [SetLoggerLevel (if Earlier.debug c0 || optDebug nuxt then 4 else 3);
                 LogWarn msg]).
Proof.
  intros H H0. split; [by apply setup_early|].
  apply earlier_setup_early. by rewrite H0.
Qed.


(** *** The debug route *)

Lemma earlier_resolveSharp_quiet (tc : TargetCompatibility) :
  Quiet notServerHandler (Earlier.resolveSharp tc).
Proof. unfold Earlier.resolveSharp. quiet. Qed.

Lemma earlier_resolveChromium_quiet (tc : TargetCompatibility) :
  Quiet notServerHandler (Earlier.resolveChromium tc).
Proof. unfold Earlier.resolveChromium. quiet. Qed.

Lemma earlier_resolveFonts_quiet (p : string) :
  Quiet notServerHandler (Earlier.resolveFonts p).
Proof. unfold Earlier.resolveFonts, Earlier.localFont. quiet. Qed.

Lemma earlier_addRuntime_quiet : Quiet notServerHandler (@Earlier.addRuntime).
Proof. unfold Earlier.addRuntime. quiet. Qed.

Lemma earlier_addBuildHandlers_quiet :
  Quiet notServerHandler (Earlier.addBuildHandlers nuxt).
Proof. unfold Earlier.addBuildHandlers. quiet. Qed.

Lemma earlier_addRoutes_effects (c : Earlier.ModuleOptions) :
  effects (Earlier.addRoutes nuxt c)
  = ([SetOption "experimental.componentIslands";
      AddServerHandler "/__og-image__/font/**"
        "./runtime/server/routes/__og-image__/font-[name]-[weight].[extension]"]
     ++ (if Earlier.debug c || optDev nuxt
         then [AddServerHandler "/__og-image__/debug.json"
                 "./runtime/server/routes/__og-image__/debug.json"]
         else [])
     ++ [AddServerHandler "/__og-image__/image/**"
           "./runtime/server/routes/__og-image__/image"])%list.
Proof. unfold Earlier.addRoutes, when. cbn. by destruct (_ || _). Qed.

Lemma earlier_setup_keeps_debug (c : Earlier.ModuleOptions) :
  let p := resolveNitroPreset host (nitro nuxt) in
  let tc := getPresetNitroPresetCompatibility host p in
  let c1 := config (Earlier.resolveSharp tc c) in
  let c2 := config (Earlier.resolveChromium tc c1) in
  let c3 := config (Earlier.resolveFonts p c2) in
  Earlier.debug c3 = Earlier.debug c.
Proof.
  intros p tc c1 c2 c3. subst c3.
  destruct (earlier_resolveFonts_config p c2) as (fs & ->). subst c2.
  rewrite earlier_resolveChromium_config. subst c1.
  by destruct (earlier_resolveSharp_config tc c) as (e & ->).
Qed.

Lemma quiet_no_handler {C : Type} (m : M C unit) (c : C) (route handler : string) :
  Quiet notServerHandler m -> ~ In (AddServerHandler route handler) (effects (m c)).
Proof.
  intros Hm Hin. specialize (Hm c). rewrite Forall_forall in Hm.
  apply list_elem_of_In in Hin. by destruct (Hm _ Hin route handler).
Qed.

Lemma earlier_debug_handler_iff (c : Earlier.ModuleOptions) :
  (exists handler,
     In (AddServerHandler "/__og-image__/debug.json" handler)
        (snd (Earlier.setup host nuxt c)))
  <-> Earlier.enabled c = true /\ ssr nuxt = true
      /\ (Earlier.debug c = true \/ optDev nuxt = true).
Proof.
  destruct (Earlier.enabled c) eqn:He; [destruct (ssr nuxt) eqn:Hs|].
  - rewrite (earlier_setup_proceeds host nuxt c He Hs). cbn [snd].
    pose proof (earlier_setup_keeps_debug c) as Hd. cbv zeta in Hd.
    split.
    + intros (handler & Hin). split; [done|]. split; [done|].
      rewrite !in_app_iff in Hin.
      destruct Hin as [Hin|[Hin|[Hin|[Hin|[Hin|[Hin|[Hin|[Hin|[Hin|Hin]]]]]]]]].
      * by destruct Hin.
      * by apply quiet_no_handler in Hin; [|apply earlier_resolveSharp_quiet].
      * by apply quiet_no_handler in Hin; [|apply earlier_resolveChromium_quiet].
      * by destruct Hin.
      * destruct (hasNuxtModule host _); [by destruct Hin|done].
      * by apply quiet_no_handler in Hin; [|apply earlier_resolveFonts_quiet].
      * rewrite earlier_addRoutes_effects, Hd in Hin. apply orb_true_iff.
        destruct (Earlier.debug c || optDev nuxt); [done|].
        cbn in Hin. destruct Hin as [?|[?|[?|[]]]]; done.
      * by apply quiet_no_handler in Hin; [|apply earlier_addRuntime_quiet].
      * by destruct Hin.
      * by apply quiet_no_handler in Hin; [|apply earlier_addBuildHandlers_quiet].
    + intros (_ & _ & Hd'%orb_true_iff).
      exists "./runtime/server/routes/__og-image__/debug.json".
      rewrite !in_app_iff. do 6 right. left.
      rewrite earlier_addRoutes_effects, Hd, Hd'. cbn. auto.
  - destruct (earlier_setup_early host nuxt c) as (_ & msg & [->| ->]); [auto| |];
      (split; [intros (handler & [?|[?|[]]]); done|intros (_ & ? & _); done]).
  - destruct (earlier_setup_early host nuxt c) as (_ & msg & [->| ->]); [auto| |];
      (split; [intros (handler & [?|[?|[]]]); done|intros (? & _); done]).
Qed.

(** C8 (as amended): the handler of [/__og-image__/debug.json] is registered
    exactly when [setup] does not return early and the debug option is set or
    Nuxt runs in dev mode, in both revisions. *)
Theorem debug_route_registered_iff_debug_or_dev (c : Current.ModuleOptions)
    (c0 : Earlier.ModuleOptions) :
  ((exists handler,
      In (AddServerHandler "/__og-image__/debug.json" handler)
         (snd (Current.setup host nuxt c)))
   <-> Current.enabled c = true /\ ssr nuxt = true
       /\ (Current.debug c = true \/ optDev nuxt = true))
  /\ ((exists handler,
         In (AddServerHandler "/__og-image__/debug.json" handler)
            (snd (Earlier.setup host nuxt c0)))
      <-> Earlier.enabled c0 = true /\ ssr nuxt = true
          /\ (Earlier.debug c0 = true \/ optDev nuxt = true)).
Proof. split; [apply current_debug_handler_iff|apply earlier_debug_handler_iff]. Qed.

End SetupProperties.





(** C1 (as stated) fails: the preset row marks chromium unavailable, Chrome is
    installed locally, and chromium is reported available for the dev and
    prerender phases. *)
Lemma local_chrome_widens_dev_and_prerender :
  let h := Samples.host "cloudflare-pages" false false true false false in
  let c' := fst (Current.setup h (Samples.nuxt false) (Current.moduleDefaults false)) in
  bindingsChromium (bindings (getPresetNitroPresetCompatibility h "cloudflare-pages")) = false
  /\ chromium (phaseFlags Dev (Current.compatibility c')) = Some true
  /\ chromium (phaseFlags Prerender (Current.compatibility c')) = Some true.
Proof. repeat split. Qed.



(** C9: the two revisions disagree on the chromium runtime flag.  With Chrome
    installed locally and chromium in the preset row, a user opt-in survives
    the earlier [setup] and is overridden to [false] by the current one; with
    playwright importable, no local Chrome and no opt-in, the earlier [setup]
    leaves chromium off and the current one turns it on. *)
Theorem variants_disagree_on_chromium :
  (exists (host : Host) (nuxt : NuxtOptions)
          (c : Current.ModuleOptions) (c0 : Earlier.ModuleOptions),
     Samples.sameOptions c c0
     /\ Earlier.runtimeChromium c0 = true
     /\ chromium (phaseFlags Runtime (Current.compatibility c)) = Some true
     /\ Earlier.runtimeChromium (fst (Earlier.setup host nuxt c0)) = true
     /\ chromium (phaseFlags Runtime
                    (Current.compatibility (fst (Current.setup host nuxt c)))) = Some false)
  /\ (exists (host : Host) (nuxt : NuxtOptions)
             (c : Current.ModuleOptions) (c0 : Earlier.ModuleOptions),
        Samples.sameOptions c c0
        /\ Earlier.runtimeChromium c0 = false
        /\ Current.compatibility c = None
        /\ Earlier.runtimeChromium (fst (Earlier.setup host nuxt c0)) = false
        /\ chromium (phaseFlags Runtime
                       (Current.compatibility (fst (Current.setup host nuxt c)))) = Some true).
Proof.
  split.
  - exists (Samples.host "node-server" true true true false false), (Samples.nuxt false),
      (Current.setCompatibility
         (Some {| runtime := Some (Current.chromiumFlag true); dev := None; prerender := None |})
         (Current.moduleDefaults false)),
      (Earlier.setRuntimeChromium true (Earlier.moduleDefaults false (Samples.nuxt false))).
    repeat split.
  - exists (Samples.host "node-server" true true false true false), (Samples.nuxt false),
      (Current.moduleDefaults false),
      (Earlier.moduleDefaults false (Samples.nuxt false)).
    repeat split.
Qed.

(** C6 fails in the earlier revision: on a target other than StackBlitz and
    with no font configured, the default faces are not injected and the font
    list given to the renderer is empty. *)
Theorem earlier_leaves_font_list_empty :
  let h := Samples.host "node-server" true true false false false in
  let c' := fst (Earlier.setup h (Samples.nuxt false)
                   (Earlier.moduleDefaults false (Samples.nuxt false))) in
  Earlier.fonts (Earlier.moduleDefaults false (Samples.nuxt false)) = []
  /\ Earlier.fonts c' = []
  /\ Earlier.rcFonts (Earlier.runtimeConfig (Earlier.modulesDone h (Samples.nuxt false) c')) = [].
Proof. repeat split. Qed.



(** C7 (as stated) fails: the descriptor made from [Inter:700] carries no
    key. *)
Lemma shorthand_descriptor_has_no_key :
  let h := Samples.host "node-server" true true false false false in
  let c' := fst (Current.setup h (Samples.nuxt false)
                   (Samples.withFonts [Shorthand "Inter:700"])) in
  Current.rcFonts (Current.runtimeConfig (Current.modulesDone h (Samples.nuxt false) c'))
  = [{| name := "Inter"; weight := Some (WeightString "700");
        path := None; key := None |}].
Proof. reflexivity. Qed.

(** Witness of [shorthand_expands_without_key]: [Inter:700] on node-server. *)
Lemma shorthand_expands_without_key_witness :
  let h := Samples.host "node-server" true true false false false in
  let c' := fst (Current.setup h (Samples.nuxt false)
                   (Samples.withFonts [Shorthand "Inter:700"])) in
  let hook := Current.modulesDone h (Samples.nuxt false) c' in
  In {| name := "Inter"; weight := Some (WeightString "700"); path := None; key := None |}
     (Current.rcFonts (Current.runtimeConfig hook))
  /\ (true = true -> In "/__og-image__/font/Inter/700.ttf" (Current.pushedRoutes hook)).
Proof.
  apply (shorthand_expands_without_key
           (Samples.host "node-server" true true false false false)
           (Samples.nuxt false) (Samples.withFonts [Shorthand "Inter:700"])
           "Inter" "700").
  - reflexivity.
  - reflexivity.
  - discriminate.
  - reflexivity.
  - reflexivity.
  - simpl. by left.
Defined.

(** C8 (as stated) fails: with the debug option off, the dev server still
    registers the debug route. *)
Lemma debug_route_registered_in_dev_without_debug :
  let r := Current.setup (Samples.host "node-server" true true false false false)
             (Samples.nuxt true) (Current.moduleDefaults false) in
  Current.debug (Current.moduleDefaults false) = false
  /\ In Samples.debugHandler (snd r).
Proof. split; [reflexivity|]. vm_compute. tauto. Qed.

(** Witness of [disabled_setup_registers_nothing]. *)
Lemma disabled_setup_registers_nothing_witness :
  let h := Samples.host "node-server" true true false false false in
  (fst (Current.setup h (Samples.nuxt false) Samples.disabled) = Samples.disabled
   /\ exists msg,
        snd (Current.setup h (Samples.nuxt false) Samples.disabled)
        = [SetLoggerLevel 3; LogDebug msg]
        \/ snd (Current.setup h (Samples.nuxt false) Samples.disabled)
           = [SetLoggerLevel 3; LogWarn msg])
  /\ (fst (Earlier.setup h (Samples.nuxt false) Samples.earlierDisabled)
      = Samples.earlierDisabled
      /\ exists msg,
           snd (Earlier.setup h (Samples.nuxt false) Samples.earlierDisabled)
           = [SetLoggerLevel 3; LogDebug msg]
           \/ snd (Earlier.setup h (Samples.nuxt false) Samples.earlierDisabled)
              = [SetLoggerLevel 3; LogWarn msg]).
Proof.
  apply (disabled_setup_registers_nothing
           (Samples.host "node-server" true true false false false)
           (Samples.nuxt false) Samples.disabled Samples.earlierDisabled).
  - by left.
  - reflexivity.
Defined.

(** * Further properties *)

(** ** The memo cells, continued *)

Section MoreInstancesFacts.

Import Instances.

Variable importBinding : EngineKind -> nat -> Settled Binding.

Lemma importCount_invoke (k k' : EngineKind) (p : Process) :
  importCount k (invoke k' p)
  = importCount k p
    + match instance k' (cells p) with
      | None => if decide (k' = k) then 1 else 0
      | Some _ => 0
      end.
Proof.
  unfold invoke. destruct (instance k' (cells p)); [simpl; unfold importCount; simpl; lia|].
  unfold importCount; simpl. rewrite filter_app, length_app.
  destruct (decide (k' = k)) as [->|Hne].
  - by rewrite filter_cons_True.
  - by rewrite filter_cons_False.
Qed.

(** An import is evaluated only by a call of its kind, and at most once per
    call: the imports of a kind never outnumber the calls of its accessor. *)
Theorem imports_bounded_by_calls (k : EngineKind) (evs : list Event) :
  importCount k (run importBinding evs start)
  <= length (filter (fun ev => ev = Call k) evs).
Proof.
  assert (H : forall p, importCount k (run importBinding evs p)
                        <= importCount k p + length (filter (fun ev => ev = Call k) evs)).
  { induction evs as [|ev evs IH]; intros p; simpl; [lia|].
    etrans; [apply IH|]. destruct ev as [k'|i]; simpl.
    - rewrite importCount_invoke.
      destruct (decide (k' = k)) as [->|Hne].
      + rewrite filter_cons_True by done. simpl. destruct (instance k (cells p)); lia.
      + rewrite filter_cons_False by congruence. destruct (instance k' (cells p)); lia.
    - rewrite importCount_resume, filter_cons_False by done. lia. }
  apply (H start).
Qed.

(** Calls of other kinds only. *)
Lemma step_other_kind (k : EngineKind) (ev : Event) (p : Process) :
  (forall k', ev = Call k' -> k' <> k) ->
  (forall i c, calls p !! i <> Some (k, c)) ->
  instance k (cells (step importBinding ev p)) = instance k (cells p)
  /\ importCount k (step importBinding ev p) = importCount k p
  /\ forall i c, calls (step importBinding ev p) !! i <> Some (k, c).
Proof.
  intros Hev Hnone. destruct ev as [k'|i]; simpl.
  - assert (Hne : k' <> k) by (by apply Hev).
    split; [|split].
    + unfold invoke. destruct (instance k' (cells p)); simpl; [|done].
      rewrite instance_setInstance. by rewrite decide_False.
    + by rewrite importCount_step_other.
    + intros i c. unfold invoke.
      destruct (instance k' (cells p)); simpl;
        intros [H|[_ H]]%lookup_app_Some;
        solve [by eapply Hnone
              | apply list_lookup_singleton_Some in H as [_ H]; congruence].
  - split; [|split; [apply importCount_resume|]].
    + unfold resume. destruct (calls p !! i) as [[k' [n|[[]|e]|r]]|] eqn:Hi; try done.
      destruct (decide (k' = k)) as [->|Hne]; [by destruct (Hnone i (AwaitImport n))|].
      destruct (importBinding k' n); simpl; [|done].
      rewrite instance_setInstance. by rewrite decide_False.
    + intros j c. unfold resume.
      destruct (calls p !! i) as [[k' cont]|] eqn:Hi; [|apply Hnone].
      assert (Hne : k' <> k) by (intros ->; by destruct (Hnone i cont)).
      destruct cont as [n|[[]|e]|r]; try apply Hnone;
        try destruct (importBinding k' n); simpl;
        intros [(_ & H & _)|[_ H]]%list_lookup_insert_Some;
        solve [congruence | by eapply Hnone].
Qed.

(** Whatever the accessors of the other kinds do, in any interleaving, the
    cell of kind [k] is not written and its module is not imported. *)
Theorem other_kinds_are_untouched (k : EngineKind) (evs : list Event) (p : Process) :
  (forall k', In (Call k') evs -> k' <> k) ->
  (forall i c, calls p !! i <> Some (k, c)) ->
  instance k (cells (run importBinding evs p)) = instance k (cells p)
  /\ importCount k (run importBinding evs p) = importCount k p.
Proof.
  revert p. induction evs as [|ev evs IH]; intros p Hev Hnone; [done|].
  simpl. destruct (step_other_kind k ev p) as (Hc & Hn & Hnone').
  { intros k' ->. apply Hev. by left. }
  { done. }
  destruct (IH (step importBinding ev p)) as [Hc' Hn'].
  { intros k' Hin. apply Hev. by right. }
  { done. }
  split; congruence.
Qed.

(** Unlike a failed import, a failed wasm initialisation is cached: the
    binding stays in the cell, so the next call does not import again and
    rejects with the same error. *)
Theorem failed_wasm_initialisation_is_cached (k : EngineKind) (b : Binding)
    (p : Process) (e : string) :
  awaitsInitWasm k = true ->
  instance k (cells p) = None ->
  importBinding k (importCount k p) = Fulfilled b ->
  initWasmPromise b = Rejected e ->
  let p1 := use importBinding k p in
  let p2 := use importBinding k p1 in
  outcome (length (calls p)) p1 = Some (Rejected e)
  /\ instance k (cells p1) = Some b
  /\ outcome (length (calls p1)) p2 = Some (Rejected e)
  /\ instance k (cells p2) = Some b
  /\ importCount k p2 = importCount k p1.
Proof.
  intros Hk Hempty Hload Hinit p1 p2.
  assert (Hp1 : p1 = {| cells := setInstance k b (cells p);
                        imported := imported p ++ [k];
                        calls := calls p ++ [(k, Returned (Rejected e))] |}).
  { subst p1. by rewrite use_empty, Hload, Hinit, Hk. }
  assert (Hfull : instance k (cells p1) = Some b).
  { rewrite Hp1. apply instance_setInstance_eq. }
  assert (Hp2 : p2 = {| cells := cells p1;
                        imported := imported p1;
                        calls := calls p1 ++ [(k, Returned (Rejected e))] |}).
  { subst p2. by rewrite (use_filled _ _ _ _ Hfull), Hinit, Hk. }
  split; [rewrite Hp1; apply outcome_snoc|].
  split; [done|].
  split; [rewrite Hp2; apply outcome_snoc|].
  split; [by rewrite Hp2|].
  by rewrite Hp2.
Qed.

End MoreInstancesFacts.

Lemma other_kinds_are_untouched_witness :
  let q := Instances.run Instances.cachingLoader
             [Instances.Call Instances.Sharp; Instances.Call Instances.Satori;
              Instances.Resume 0; Instances.Resume 1; Instances.Resume 1]
             Instances.start in
  Instances.instance Instances.Resvg (Instances.cells q)
  = Instances.instance Instances.Resvg (Instances.cells Instances.start)
  /\ Instances.importCount Instances.Resvg q
     = Instances.importCount Instances.Resvg Instances.start.
Proof.
  apply (other_kinds_are_untouched Instances.cachingLoader Instances.Resvg
           [Instances.Call Instances.Sharp; Instances.Call Instances.Satori;
            Instances.Resume 0; Instances.Resume 1; Instances.Resume 1]
           Instances.start).
  - intros k' [H|[H|[H|[H|[H|[]]]]]]; try discriminate H; injection H as <-; discriminate.
  - intros [|i] c; discriminate.
Defined.

Lemma failed_wasm_initialisation_is_cached_witness :
  let p1 := Instances.useResvg MoreSamples.brokenLoader Instances.start in
  let p2 := Instances.useResvg MoreSamples.brokenLoader p1 in
  Instances.outcome 0 p1 = Some (Rejected "wasm init failed")
  /\ Instances.instance Instances.Resvg (Instances.cells p1) = Some MoreSamples.brokenWasm
  /\ Instances.outcome 1 p2 = Some (Rejected "wasm init failed")
  /\ Instances.instance Instances.Resvg (Instances.cells p2) = Some MoreSamples.brokenWasm
  /\ Instances.importCount Instances.Resvg p2 = Instances.importCount Instances.Resvg p1.
Proof.
  apply (failed_wasm_initialisation_is_cached MoreSamples.brokenLoader Instances.Resvg
           MoreSamples.brokenWasm Instances.start "wasm init failed").
  - reflexivity.
  - reflexivity.
  - reflexivity.
  - reflexivity.
Defined.

(** ** [setup], continued *)

Lemma filter_quiet {C A : Type} (f : Effect -> bool) (m : SetupM.M C A) (c : C) :
  SetupM.Quiet (fun e => f e = false) m -> List.filter f (SetupM.effects (m c)) = [].
Proof.
  intros Hm. specialize (Hm c). induction Hm as [|e es He _ IH]; [done|].
  simpl. by rewrite He.
Qed.

Lemma hasConfiguredJpegs_decide (e : option string) :
  Js.truthy e && Js.includes ["jpeg"; "jpg"] (default "" e)
  = bool_decide (e = Some "jpeg" \/ e = Some "jpg").
Proof.
  destruct e as [s|]; [|reflexivity].
  unfold Js.truthy, Js.includes. cbn [default existsb id].
  destruct (String.eqb_spec s "jpeg") as [->|H1]; [by rewrite bool_decide_eq_true_2; auto|].
  destruct (String.eqb_spec s "jpg") as [->|H2]; [by rewrite bool_decide_eq_true_2; auto|].
  rewrite andb_false_r. symmetry. apply bool_decide_eq_false_2.
  intros [[= ->]|[= ->]]; done.
Qed.

Section MoreCurrentFacts.

Import SetupM.

Variable host : Host.
Variable nuxt : NuxtOptions.

(** The trace of a [setup] that does not return early, class by class. *)
Lemma setup_filter (f : Effect -> bool) (c : Current.ModuleOptions) :
  Current.enabled c = true -> ssr nuxt = true ->
  let p := resolveNitroPreset host (nitro nuxt) in
  let tc := getPresetNitroPresetCompatibility host p in
  let c1 := config (Current.resolveSharp host p tc c) in
  let c2 := config (Current.resolveChromium host nuxt tc c1) in
  let c3 := config (Current.resolveFonts p c2) in
  List.filter f (snd (Current.setup host nuxt c))
  = (List.filter f [SetLoggerLevel (if Current.debug c || optDebug nuxt then 4 else 3)]
     ++ List.filter f (effects (Current.resolveSharp host p tc c))
     ++ List.filter f (effects (Current.resolveChromium host nuxt tc c1))
     ++ List.filter f [InstallNuxtSiteConfig]
     ++ List.filter f (if hasNuxtModule host "@nuxt/content"
                       then [AddServerPlugin "./runtime/nitro/plugins/nuxt-content"] else [])
     ++ List.filter f (effects (Current.resolveFonts p c2))
     ++ List.filter f (effects (Current.addRoutes nuxt c3))
     ++ List.filter f (effects (Current.addRuntime c3))
     ++ List.filter f [Hook "modules:done"]
     ++ List.filter f (effects (Current.addBuildHandlers nuxt c3)))%list.
Proof.
  intros He Hs p tc c1 c2 c3. rewrite (setup_proceeds host nuxt c He Hs). cbn [snd].
  by rewrite !List.filter_app.
Qed.

Lemma setup_filter_early (f : Effect -> bool) (c : Current.ModuleOptions) :
  Current.enabled c && ssr nuxt = false ->
  (forall msg, f (LogDebug msg) = false) -> (forall msg, f (LogWarn msg) = false) ->
  (forall n, f (SetLoggerLevel n) = false) ->
  List.filter f (snd (Current.setup host nuxt c)) = [].
Proof.
  intros H Hd Hw Hl.
  destruct (setup_early host nuxt c) as (_ & msg & [->| ->]).
  - destruct (Current.enabled c); [right; split; [done|]|by left]. by destruct (ssr nuxt).
  - simpl. by rewrite Hl, Hd.
  - simpl. by rewrite Hl, Hw.
Qed.

(** [setup] registers the font route and the image route once each, the debug
    route between them when debugging or in dev mode, and no other route. *)
Theorem server_routes_registered (c : Current.ModuleOptions) :
  List.filter isServerHandler (snd (Current.setup host nuxt c))
  = if Current.enabled c && ssr nuxt then
      ([AddServerHandler "/__og-image__/font/**"
          "./runtime/server/routes/__og-image__/font-[name]-[weight].[extension]"]
       ++ (if Current.debug c || optDev nuxt
           then [AddServerHandler "/__og-image__/debug.json"
                   "./runtime/server/routes/__og-image__/debug.json"]
           else [])
       ++ [AddServerHandler "/__og-image__/image/**"
             "./runtime/server/routes/__og-image__/image"])%list
    else [].
Proof.
  destruct (Current.enabled c && ssr nuxt) eqn:H; [|by apply setup_filter_early].
  apply andb_true_iff in H as [He Hs]. rewrite (setup_filter _ c He Hs).
  rewrite (filter_quiet _ (Current.resolveSharp _ _ _))
    by (unfold Current.resolveSharp, Current.mergeCompatibility; quiet).
  rewrite (filter_quiet _ (Current.resolveChromium _ _ _))
    by (unfold Current.resolveChromium, Current.mergeCompatibility; quiet).
  rewrite (filter_quiet _ (Current.resolveFonts _))
    by (unfold Current.resolveFonts, Current.stackblitzFont; quiet).
  rewrite (filter_quiet _ (@Current.addRuntime)) by (unfold Current.addRuntime; quiet).
  rewrite (filter_quiet _ (Current.addBuildHandlers _))
    by (unfold Current.addBuildHandlers; quiet).
  pose proof (setup_keeps_debug host nuxt c) as Hd. cbv zeta in Hd.
  rewrite addRoutes_effects, Hd.
  destruct (hasNuxtModule host _), (Current.debug c || optDev nuxt); reflexivity.
Qed.


Lemma resolveSharp_installs (p : string) (tc : TargetCompatibility)
    (c : Current.ModuleOptions) :
  List.filter isInstall (effects (Current.resolveSharp host p tc c))
  = if bool_decide (extension (Current.defaults c) = Some "jpeg"
                    \/ extension (Current.defaults c) = Some "jpg")
       && negb (bool_decide (renderer (Current.defaults c) = Some "chromium"))
       && negb (Js.truthy (tryResolveModule host "sharp"))
    then [EnsureDependencies ["sharp"]] else [].
Proof.
  unfold Current.resolveSharp, Current.mergeCompatibility.
  cbn [bind getConfig setConfig SetupM.value SetupM.config SetupM.effects
         Current.setExtension Current.defaults renderer].
  rewrite hasConfiguredJpegs_decide.
  destruct (bool_decide (_ \/ _)), (bool_decide (_ = _)),
    (Js.truthy (tryResolveModule host "sharp")),
    (bindingsSharp (bindings tc)); reflexivity.
Qed.

Lemma resolveChromium_installs (tc : TargetCompatibility) (c : Current.ModuleOptions) :
  List.filter isInstall (effects (Current.resolveChromium host nuxt tc c))
  = if negb (Js.truthy (getFirstInstallation host))
       && negb (Js.truthy (tryResolveModule host "playwright"))
       && _generate nuxt
    then [EnsureChromium] else [].
Proof.
  unfold Current.resolveChromium, Current.mergeCompatibility.
  destruct (Js.truthy (getFirstInstallation host)),
    (Js.truthy (tryResolveModule host "playwright")),
    (_generate nuxt), (build nuxt), (bindingsChromium (bindings tc)); reflexivity.
Qed.

(** [setup] installs sharp only when a JPEG default is configured for a
    renderer other than chromium and sharp cannot be resolved, and chromium
    only for [nuxt generate] when neither Chrome nor playwright is found; it
    installs nothing else. *)
Theorem setup_installs (c : Current.ModuleOptions) :
  List.filter isInstall (snd (Current.setup host nuxt c))
  = if Current.enabled c && ssr nuxt then
      ((if bool_decide (extension (Current.defaults c) = Some "jpeg"
                        \/ extension (Current.defaults c) = Some "jpg")
           && negb (bool_decide (renderer (Current.defaults c) = Some "chromium"))
           && negb (Js.truthy (tryResolveModule host "sharp"))
        then [EnsureDependencies ["sharp"]] else [])
       ++ (if negb (Js.truthy (getFirstInstallation host))
              && negb (Js.truthy (tryResolveModule host "playwright"))
              && _generate nuxt
           then [EnsureChromium] else []))%list
    else [].
Proof.
  destruct (Current.enabled c && ssr nuxt) eqn:H; [|by apply setup_filter_early].
  apply andb_true_iff in H as [He Hs]. rewrite (setup_filter _ c He Hs).
  rewrite resolveSharp_installs, resolveChromium_installs.
  rewrite (filter_quiet _ (Current.resolveFonts _))
    by (unfold Current.resolveFonts, Current.stackblitzFont; quiet).
  rewrite (filter_quiet _ (Current.addRoutes _)) by (unfold Current.addRoutes; quiet).
  rewrite (filter_quiet _ (@Current.addRuntime)) by (unfold Current.addRuntime; quiet).
  rewrite (filter_quiet _ (Current.addBuildHandlers _))
    by (unfold Current.addBuildHandlers; quiet).
  destruct (hasNuxtModule host _); cbn [List.filter isInstall app]; by rewrite !app_nil_r.
Qed.

(** [setup] sets up the handlers of exactly one mode (dev, generate or build,
    in that order of precedence) and always ends with the prerender handler. *)
Theorem build_handlers_set_up (c : Current.ModuleOptions) :
  List.filter isBuildSetup (snd (Current.setup host nuxt c))
  = if Current.enabled c && ssr nuxt then
      ((if optDev nuxt then [SetupDevHandler; SetupDevToolsUI]
        else if _generate nuxt then [SetupGenerateHandler]
        else if build nuxt then [SetupBuildHandler]
        else [])
       ++ [SetupPrerenderHandler])%list
    else [].
Proof.
  destruct (Current.enabled c && ssr nuxt) eqn:H; [|by apply setup_filter_early].
  apply andb_true_iff in H as [He Hs]. rewrite (setup_filter _ c He Hs).
  rewrite (filter_quiet _ (Current.resolveSharp _ _ _))
    by (unfold Current.resolveSharp, Current.mergeCompatibility; quiet).
  rewrite (filter_quiet _ (Current.resolveChromium _ _ _))
    by (unfold Current.resolveChromium, Current.mergeCompatibility; quiet).
  rewrite (filter_quiet _ (Current.resolveFonts _))
    by (unfold Current.resolveFonts, Current.stackblitzFont; quiet).
  rewrite (filter_quiet _ (Current.addRoutes _)) by (unfold Current.addRoutes; quiet).
  rewrite (filter_quiet _ (@Current.addRuntime)) by (unfold Current.addRuntime; quiet).
  unfold Current.addBuildHandlers, when.
  destruct (hasNuxtModule host _), (optDev nuxt), (_generate nuxt), (build nuxt);
    reflexivity.
Qed.

Lemma resolveFonts_hooks (p : string) (c : Current.ModuleOptions) :
  List.filter isHook (effects (Current.resolveFonts p c))
  = if String.eqb p "stackblitz" then [Hook "nitro:config"] else [].
Proof.
  unfold Current.resolveFonts, when.
  cbn [bind getConfig SetupM.value SetupM.config SetupM.effects].
  destruct (String.eqb p "stackblitz").
  - destruct (Nat.eqb _ _);
      cbn [bind getConfig setConfig emit ret SetupM.value SetupM.config SetupM.effects app];
      rewrite !List.filter_app;
      rewrite (filter_quiet _ (mapM Current.stackblitzFont _))
        by (unfold Current.stackblitzFont; quiet);
      reflexivity.
  - by destruct (Nat.eqb _ _).
Qed.

(** [setup] registers four hooks on every target and the [nitro:config] hook,
    which mounts the bundled fonts, on StackBlitz only. *)
Theorem hooks_registered (c : Current.ModuleOptions) :
  List.filter isHook (snd (Current.setup host nuxt c))
  = if Current.enabled c && ssr nuxt then
      ((if String.eqb (resolveNitroPreset host (nitro nuxt)) "stackblitz"
        then [Hook "nitro:config"] else [])
       ++ [Hook "components:extend"; Hook "tailwindcss:config"; Hook "unocss:config";
           Hook "modules:done"])%list
    else [].
Proof.
  destruct (Current.enabled c && ssr nuxt) eqn:H; [|by apply setup_filter_early].
  apply andb_true_iff in H as [He Hs]. rewrite (setup_filter _ c He Hs).
  rewrite (filter_quiet _ (Current.resolveSharp _ _ _))
    by (unfold Current.resolveSharp, Current.mergeCompatibility; quiet).
  rewrite (filter_quiet _ (Current.resolveChromium _ _ _))
    by (unfold Current.resolveChromium, Current.mergeCompatibility; quiet).
  rewrite resolveFonts_hooks.
  rewrite (filter_quiet _ (Current.addRoutes _)) by (unfold Current.addRoutes; quiet).
  rewrite (filter_quiet _ (Current.addBuildHandlers _))
    by (unfold Current.addBuildHandlers; quiet).
  destruct (hasNuxtModule host _), (String.eqb _ _); reflexivity.
Qed.


Lemma resolveSharp_sharp (p : string) (tc : TargetCompatibility)
    (c : Current.ModuleOptions) (ph : Phase) :
  sharp (phaseFlags ph (Current.compatibility (config (Current.resolveSharp host p tc c))))
  = if bool_decide (extension (Current.defaults c) = Some "jpeg"
                    \/ extension (Current.defaults c) = Some "jpg")
       && negb (bool_decide (renderer (Current.defaults c) = Some "chromium"))
    then
      if Js.truthy (tryResolveModule host "sharp") && negb (bindingsSharp (bindings tc))
      then match ph with
           | Runtime => Some false
           | _ => sharp (phaseFlags ph (Current.compatibility c))
           end
      else sharp (phaseFlags ph (Current.compatibility c))
    else
      if negb (Js.truthy (tryResolveModule host "sharp")) then Some false
      else sharp (phaseFlags ph (Current.compatibility c)).
Proof.
  unfold Current.resolveSharp, Current.mergeCompatibility.
  cbn [bind getConfig setConfig SetupM.value SetupM.config SetupM.effects
         Current.setExtension Current.defaults renderer].
  rewrite hasConfiguredJpegs_decide.
  destruct (bool_decide (_ \/ _)), (bool_decide (_ = _)),
    (Js.truthy (tryResolveModule host "sharp")),
    (bindingsSharp (bindings tc)); cbn; rewrite ?phaseFlags_defu; by destruct ph.
Qed.

Lemma resolveChromium_chromium (tc : TargetCompatibility) (c : Current.ModuleOptions)
    (ph : Phase) :
  chromium (phaseFlags ph
              (Current.compatibility (config (Current.resolveChromium host nuxt tc c))))
  = if negb (Js.truthy (getFirstInstallation host))
       && negb (Js.truthy (tryResolveModule host "playwright"))
    then Some false
    else if Js.truthy (getFirstInstallation host)
    then match ph with Runtime => Some false | _ => Some true end
    else if Js.truthy (tryResolveModule host "playwright")
            && bindingsChromium (bindings tc)
    then Some true
    else chromium (phaseFlags ph (Current.compatibility c)).
Proof.
  unfold Current.resolveChromium, Current.mergeCompatibility.
  destruct (Js.truthy (getFirstInstallation host)),
    (Js.truthy (tryResolveModule host "playwright")),
    (bindingsChromium (bindings tc)), (_generate nuxt), (build nuxt);
    cbn; rewrite ?phaseFlags_defu; by destruct ph.
Qed.

Lemma setup_flags (c : Current.ModuleOptions) (ph : Phase) :
  Current.enabled c = true -> ssr nuxt = true ->
  let tc := getPresetNitroPresetCompatibility host (resolveNitroPreset host (nitro nuxt)) in
  let c1 := config (Current.resolveSharp host (resolveNitroPreset host (nitro nuxt)) tc c) in
  let after := phaseFlags ph (Current.compatibility (fst (Current.setup host nuxt c))) in
  sharp after = sharp (phaseFlags ph (Current.compatibility c1))
  /\ chromium after
     = chromium (phaseFlags ph
                   (Current.compatibility (config (Current.resolveChromium host nuxt tc c1)))).
Proof.
  intros He Hs tc c1 after. subst after.
  rewrite (setup_proceeds host nuxt c He Hs). cbn [fst]. fold tc. fold c1.
  destruct (resolveFonts_config (resolveNitroPreset host (nitro nuxt))
              (config (Current.resolveChromium host nuxt tc c1))) as (fs & ->).
  split; [|done].
  apply (proj1 (resolveChromium_flags host nuxt tc c1 ph)).
Qed.

(** The sharp flag after [setup], whatever the user has put there: off in
    every phase when sharp is not installed and no JPEG default asks for it;
    off for the runtime phase when a JPEG default meets an installed sharp on a
    target without sharp binding; the user's flag otherwise. *)
Theorem sharp_flag_resolved (c : Current.ModuleOptions) (ph : Phase) :
  Current.enabled c = true -> ssr nuxt = true ->
  let tc := getPresetNitroPresetCompatibility host (resolveNitroPreset host (nitro nuxt)) in
  let installed := Js.truthy (tryResolveModule host "sharp") in
  let jpeg :=
    bool_decide (extension (Current.defaults c) = Some "jpeg"
                 \/ extension (Current.defaults c) = Some "jpg")
    && negb (bool_decide (renderer (Current.defaults c) = Some "chromium")) in
  sharp (phaseFlags ph (Current.compatibility (fst (Current.setup host nuxt c))))
  = if jpeg then
      if installed && negb (bindingsSharp (bindings tc))
      then match ph with
           | Runtime => Some false
           | _ => sharp (phaseFlags ph (Current.compatibility c))
           end
      else sharp (phaseFlags ph (Current.compatibility c))
    else
      if negb installed then Some false
      else sharp (phaseFlags ph (Current.compatibility c)).
Proof.
  intros He Hs tc installed jpeg.
  rewrite (proj1 (setup_flags c ph He Hs)). apply resolveSharp_sharp.
Qed.

(** The chromium flag after [setup], whatever the user has put there: off in
    every phase when neither Chrome nor playwright is found; with a local
    Chrome off at runtime and on in dev and prerender; with playwright only
    and a chromium binding on the target on in every phase; the user's flag
    otherwise. *)
Theorem chromium_flag_resolved (c : Current.ModuleOptions) (ph : Phase) :
  Current.enabled c = true -> ssr nuxt = true ->
  let tc := getPresetNitroPresetCompatibility host (resolveNitroPreset host (nitro nuxt)) in
  let chrome := Js.truthy (getFirstInstallation host) in
  let playwright := Js.truthy (tryResolveModule host "playwright") in
  chromium (phaseFlags ph (Current.compatibility (fst (Current.setup host nuxt c))))
  = if negb chrome && negb playwright then Some false
    else if chrome then match ph with Runtime => Some false | _ => Some true end
    else if playwright && bindingsChromium (bindings tc) then Some true
    else chromium (phaseFlags ph (Current.compatibility c)).
Proof.
  intros He Hs tc chrome playwright.
  rewrite (proj2 (setup_flags c ph He Hs)), resolveChromium_chromium.
  destruct (negb _ && negb _); [done|]. destruct (Js.truthy (getFirstInstallation host)); [done|].
  destruct (_ && _); [done|].
  apply (proj1 (resolveSharp_flags host _ _ c ph)).
Qed.

(** [setup] touches the keys [chromium] and [sharp] only. *)
Lemma other_engine_flags_untouched (c : Current.ModuleOptions) (ph : Phase) :
  let before := phaseFlags ph (Current.compatibility c) in
  let after := phaseFlags ph (Current.compatibility (fst (Current.setup host nuxt c))) in
  resvg after = resvg before /\ satori after = satori before.
Proof.
  intros before after. subst before after.
  destruct (Current.enabled c) eqn:He; [destruct (ssr nuxt) eqn:Hs|].
  - rewrite (setup_compatibility host nuxt c He Hs).
    set (tc := getPresetNitroPresetCompatibility host _).
    set (p0 := resolveNitroPreset host (nitro nuxt)).
    assert (H1 : forall c', resvg (phaseFlags ph (Current.compatibility
                                 (config (Current.resolveChromium host nuxt tc c'))))
                            = resvg (phaseFlags ph (Current.compatibility c'))
                            /\ satori (phaseFlags ph (Current.compatibility
                                 (config (Current.resolveChromium host nuxt tc c'))))
                               = satori (phaseFlags ph (Current.compatibility c'))).
    { intros c'. unfold Current.resolveChromium, Current.mergeCompatibility.
      destruct (Js.truthy (getFirstInstallation host)),
        (Js.truthy (tryResolveModule host "playwright")),
        (bindingsChromium (bindings tc)), (_generate nuxt), (build nuxt);
        cbn; rewrite ?phaseFlags_defu; by destruct ph. }
    assert (H2 : resvg (phaseFlags ph (Current.compatibility
                                 (config (Current.resolveSharp host p0 tc c))))
                 = resvg (phaseFlags ph (Current.compatibility c))
                 /\ satori (phaseFlags ph (Current.compatibility
                                 (config (Current.resolveSharp host p0 tc c))))
                    = satori (phaseFlags ph (Current.compatibility c))).
    { unfold Current.resolveSharp, Current.mergeCompatibility.
      cbn [bind getConfig setConfig SetupM.value SetupM.config SetupM.effects
             Current.setExtension Current.defaults renderer].
      rewrite hasConfiguredJpegs_decide.
      destruct (bool_decide (_ \/ _)), (bool_decide (_ = _)),
        (Js.truthy (tryResolveModule host "sharp")),
        (bindingsSharp (bindings tc)); cbn; rewrite ?phaseFlags_defu; by destruct ph. }
    destruct (H1 (config (Current.resolveSharp host p0 tc c))) as [-> ->]. exact H2.
  - by rewrite (proj1 (setup_early host nuxt c (or_intror (conj He Hs)))).
  - by rewrite (proj1 (setup_early host nuxt c (or_introl He))).
Qed.

(** [setup] never changes [enabled], [debug] or the renderer. *)
Theorem setup_keeps_options (c : Current.ModuleOptions) :
  let c' := fst (Current.setup host nuxt c) in
  Current.enabled c' = Current.enabled c
  /\ Current.debug c' = Current.debug c
  /\ renderer (Current.defaults c') = renderer (Current.defaults c).
Proof.
  intros c'. subst c'.
  destruct (Current.enabled c) eqn:He; [destruct (ssr nuxt) eqn:Hs|].
  - rewrite (setup_proceeds host nuxt c He Hs). cbn [fst].
    destruct (resolveFonts_config (resolveNitroPreset host (nitro nuxt))
                (config (Current.resolveChromium host nuxt
                   (getPresetNitroPresetCompatibility host (resolveNitroPreset host (nitro nuxt)))
                   (config (Current.resolveSharp host (resolveNitroPreset host (nitro nuxt))
                      (getPresetNitroPresetCompatibility host
                         (resolveNitroPreset host (nitro nuxt))) c)))))
      as (fs & ->).
    destruct (resolveChromium_config host nuxt
                (getPresetNitroPresetCompatibility host (resolveNitroPreset host (nitro nuxt)))
                (config (Current.resolveSharp host (resolveNitroPreset host (nitro nuxt))
                           (getPresetNitroPresetCompatibility host
                              (resolveNitroPreset host (nitro nuxt))) c)))
      as (k & ->).
    destruct (resolveSharp_config host (resolveNitroPreset host (nitro nuxt))
                (getPresetNitroPresetCompatibility host
                   (resolveNitroPreset host (nitro nuxt))) c) as (e & k' & ->).
    by rewrite <- He.
  - rewrite (proj1 (setup_early host nuxt c (or_intror (conj He Hs)))). by rewrite He.
  - rewrite (proj1 (setup_early host nuxt c (or_introl He))). by rewrite He.
Qed.

Lemma resolveSharp_extension (p : string) (tc : TargetCompatibility)
    (c : Current.ModuleOptions) :
  extension (Current.defaults (config (Current.resolveSharp host p tc c)))
  = Js.orElse (extension (Current.defaults c))
      (Some (if Js.truthy (tryResolveModule host "sharp") && bindingsSharp (bindings tc)
             then "jpg" else "png")).
Proof.
  unfold Current.resolveSharp, Current.mergeCompatibility.
  cbn [bind getConfig setConfig SetupM.value SetupM.config SetupM.effects
         Current.setExtension Current.defaults renderer].
  destruct (_ && _ && _); [destruct (_ && negb _); [done|]; by destruct (negb _)|].
  by destruct (negb _).
Qed.

(** After [setup] the default extension is never empty: a configured one is
    kept as it is, otherwise it is [jpg] when sharp is installed and the
    target has a sharp binding, and [png] when not. *)
Theorem default_extension_resolved (c : Current.ModuleOptions) :
  Current.enabled c = true -> ssr nuxt = true ->
  let tc := getPresetNitroPresetCompatibility host (resolveNitroPreset host (nitro nuxt)) in
  let after := extension (Current.defaults (fst (Current.setup host nuxt c))) in
  Js.truthy after = true
  /\ after = if Js.truthy (extension (Current.defaults c))
             then extension (Current.defaults c)
             else Some (if Js.truthy (tryResolveModule host "sharp")
                           && bindingsSharp (bindings tc)
                        then "jpg" else "png").
Proof.
  intros He Hs tc after. subst after.
  rewrite (setup_defaults host nuxt c He Hs), resolveSharp_extension.
  unfold Js.orElse. fold tc.
  destruct (Js.truthy (extension (Current.defaults c))) eqn:Ht; [done|].
  by destruct (_ && _).
Qed.

End MoreCurrentFacts.

Lemma sharp_flag_resolved_witness :
  sharp (phaseFlags Dev
           (Current.compatibility
              (fst (Current.setup (Samples.host "node-server" true true false false false)
                      (Samples.nuxt false)
                      (Current.setCompatibility
                         (Some (Current.allPhases (Current.sharpFlag true)))
                         (Current.moduleDefaults false))))))
  = Some false.
Proof.
  apply (sharp_flag_resolved (Samples.host "node-server" true true false false false)
           (Samples.nuxt false)
           (Current.setCompatibility (Some (Current.allPhases (Current.sharpFlag true)))
              (Current.moduleDefaults false)) Dev).
  - reflexivity.
  - reflexivity.
Defined.

Lemma chromium_flag_resolved_witness :
  chromium (phaseFlags Runtime
              (Current.compatibility
                 (fst (Current.setup (Samples.host "node-server" true true true false false)
                         (Samples.nuxt false)
                         (Current.setCompatibility
                            (Some (Current.allPhases (Current.chromiumFlag true)))
                            (Current.moduleDefaults false))))))
  = Some false.
Proof.
  apply (chromium_flag_resolved (Samples.host "node-server" true true true false false)
           (Samples.nuxt false)
           (Current.setCompatibility (Some (Current.allPhases (Current.chromiumFlag true)))
              (Current.moduleDefaults false)) Runtime).
  - reflexivity.
  - reflexivity.
Defined.

Lemma default_extension_resolved_witness :
  let after := extension (Current.defaults
                 (fst (Current.setup (Samples.host "node-server" true true false false true)
                         (Samples.nuxt false) (Current.moduleDefaults false)))) in
  Js.truthy after = true /\ after = Some "jpg".
Proof.
  apply (default_extension_resolved (Samples.host "node-server" true true false false true)
           (Samples.nuxt false) (Current.moduleDefaults false)).
  - reflexivity.
  - reflexivity.
Defined.

(** ** Fonts, continued *)

Section FontFacts.

Import SetupM.

Variable host : Host.
Variable nuxt : NuxtOptions.

Lemma resolveFonts_stackblitz_kept (c : Current.ModuleOptions) (g : InputFontConfig) :
  In g (Current.fonts (config (Current.resolveFonts "stackblitz" c))) ->
  exists d, g = Descriptor d /\ lacksPathAndKey d = false.
Proof.
  destruct (Current.fonts c) as [|f fs] eqn:Hf.
  - unfold Current.resolveFonts, when.
    cbn [bind getConfig SetupM.value SetupM.config]. rewrite Hf. cbn.
    intros [<-|[<-|[]]]; eexists; split; reflexivity.
  - destruct (resolveFonts_stackblitz c) as [-> _]; [by rewrite Hf|].
    intros Hg. apply In_filterBoolean, in_map_iff in Hg as (f' & Hv & _).
    eauto using stackblitzFont_kept.
Qed.

(** On StackBlitz every font that [setup] leaves has a path or a key, so the
    [modules:done] hook adds no font route to the prerender routes. *)
Theorem stackblitz_prerenders_no_font (c : Current.ModuleOptions) :
  Current.enabled c = true -> ssr nuxt = true ->
  resolveNitroPreset host (nitro nuxt) = "stackblitz" ->
  let hook := Current.modulesDone host nuxt (fst (Current.setup host nuxt c)) in
  Current.pushedRoutes hook = []
  /\ Forall (fun f => lacksPathAndKey f = false) (Current.rcFonts (Current.runtimeConfig hook)).
Proof.
  intros He Hs Hp hook. subst hook.
  destruct (setup_fonts host nuxt c He Hs) as (c2 & _ & -> & _). rewrite Hp.
  pose proof (resolveFonts_stackblitz_kept c2) as Hkept.
  unfold Current.modulesDone, Current.normalisedFonts.
  cbn [Current.pushedRoutes Current.runtimeConfig Current.rcFonts].
  induction (Current.fonts (config (Current.resolveFonts "stackblitz" c2))) as [|g gs IH].
  - split; [by destruct (_ && _)|constructor].
  - destruct (Hkept g) as (d & -> & Hd); [by left|].
    destruct IH as [IH1 IH2]; [intros g' Hg'; apply Hkept; by right|].
    split.
    + destruct (negb (_generate nuxt) && build nuxt); [|done].
      simpl. rewrite Hd. exact IH1.
    + constructor; [exact Hd|exact IH2].
Qed.

(** Off StackBlitz [setup] leaves the configured font list as it is (the two
    Inter faces when it is empty), and the runtime configuration holds one
    descriptor per entry, in the same order, duplicates included; configured
    descriptors arrive unchanged. *)
Theorem fonts_pass_through_elsewhere (c : Current.ModuleOptions) :
  Current.enabled c = true -> ssr nuxt = true ->
  resolveNitroPreset host (nitro nuxt) <> "stackblitz" ->
  let c' := fst (Current.setup host nuxt c) in
  let configured :=
    match Current.fonts c with
    | [] => [Shorthand "Inter:400"; Shorthand "Inter:700"]
    | _ :: _ => Current.fonts c
    end in
  Current.fonts c' = configured
  /\ Current.rcFonts (Current.runtimeConfig (Current.modulesDone host nuxt c'))
     = map normaliseFont configured
  /\ forall d, In (Descriptor d) configured ->
       In d (Current.rcFonts (Current.runtimeConfig (Current.modulesDone host nuxt c'))).
Proof.
  intros He Hs Hp c' configured. subst c' configured.
  destruct (setup_fonts host nuxt c He Hs) as (c2 & Hf & -> & _).
  rewrite (resolveFonts_elsewhere _ _ Hp), Hf.
  split; [done|].
  unfold Current.modulesDone, Current.normalisedFonts.
  cbn [Current.runtimeConfig Current.rcFonts].
  rewrite (resolveFonts_elsewhere _ _ Hp), Hf.
  split; [done|].
  intros d Hd. apply in_map_iff. by exists (Descriptor d).
Qed.

End FontFacts.

Lemma split_cons (n s : string) :
  Js.colonFree n = true -> Js.split ":" (n ++ ":" ++ s) = n :: Js.split ":" s.
Proof.
  intros Hn. induction n as [|a n IH].
  - change ("" ++ ":" ++ s) with (String ":" s). reflexivity.
  - change (String a n ++ ":" ++ s) with (String a (n ++ ":" ++ s)). simpl.
    simpl in Hn. apply andb_true_iff in Hn as [Ha Hn]. apply negb_true_iff in Ha.
    by rewrite Ha, (IH Hn).
Qed.

(** A shorthand without a colon has no weight, and its font route ends in
    [undefined.ttf]; whatever follows a second colon is ignored. *)
Theorem shorthand_edge_cases (n w rest : string) :
  Js.colonFree n = true -> Js.colonFree w = true ->
  normaliseFont (Shorthand n)
  = {| name := n; weight := None; path := None; key := None |}
  /\ fontRoute (normaliseFont (Shorthand n)) = "/__og-image__/font/" ++ n ++ "/undefined.ttf"
  /\ normaliseFont (Shorthand (n ++ ":" ++ w ++ ":" ++ rest))
     = {| name := n; weight := Some (WeightString w); path := None; key := None |}.
Proof.
  intros Hn Hw. unfold normaliseFont.
  rewrite (split_colonFree n Hn), (split_cons n _ Hn), (split_cons w _ Hw).
  done.
Qed.

Lemma stackblitz_prerenders_no_font_witness :
  let h := Samples.host "stackblitz" false false false false false in
  let hook := Current.modulesDone h (Samples.nuxt false)
                (fst (Current.setup h (Samples.nuxt false)
                        (Samples.withFonts
                           [Shorthand "Inter:700"; Shorthand "Roboto:400"]))) in
  Current.pushedRoutes hook = []
  /\ Forall (fun f => lacksPathAndKey f = false)
       (Current.rcFonts (Current.runtimeConfig hook)).
Proof.
  apply (stackblitz_prerenders_no_font
           (Samples.host "stackblitz" false false false false false) (Samples.nuxt false)
           (Samples.withFonts [Shorthand "Inter:700"; Shorthand "Roboto:400"])).
  - reflexivity.
  - reflexivity.
  - reflexivity.
Defined.

Lemma fonts_pass_through_elsewhere_witness :
  let h := Samples.host "node-server" true true false false false in
  let fs := [Shorthand "Roboto:400";
             Descriptor {| name := "Mine"; weight := Some (WeightNumber 400);
                           path := Some "fonts/mine.ttf"; key := None |};
             Shorthand "Roboto:400"] in
  let c' := fst (Current.setup h (Samples.nuxt false) (Samples.withFonts fs)) in
  Current.fonts c' = fs
  /\ Current.rcFonts (Current.runtimeConfig (Current.modulesDone h (Samples.nuxt false) c'))
     = map normaliseFont fs
  /\ forall d, In (Descriptor d) fs ->
       In d (Current.rcFonts
               (Current.runtimeConfig (Current.modulesDone h (Samples.nuxt false) c'))).
Proof.
  apply (fonts_pass_through_elsewhere
           (Samples.host "node-server" true true false false false) (Samples.nuxt false)
           (Samples.withFonts
              [Shorthand "Roboto:400";
               Descriptor {| name := "Mine"; weight := Some (WeightNumber 400);
                             path := Some "fonts/mine.ttf"; key := None |};
               Shorthand "Roboto:400"])).
  - reflexivity.
  - reflexivity.
  - discriminate.
Defined.

Lemma shorthand_edge_cases_witness :
  normaliseFont (Shorthand "Inter")
  = {| name := "Inter"; weight := None; path := None; key := None |}
  /\ fontRoute (normaliseFont (Shorthand "Inter")) = "/__og-image__/font/Inter/undefined.ttf"
  /\ normaliseFont (Shorthand "Inter:400:italic")
     = {| name := "Inter"; weight := Some (WeightString "400"); path := None; key := None |}.
Proof.
  apply (shorthand_edge_cases "Inter" "400" "italic").
  - reflexivity.
  - reflexivity.
Defined.

(** ** The earlier [setup], continued *)

Lemma filterBoolean_map_if {A : Type} (keep : A -> bool) (xs : list A) :
  filterBoolean (map (fun x => if keep x then Some x else None) xs) = List.filter keep xs.
Proof.
  unfold filterBoolean. induction xs as [|x xs IH]; [done|].
  cbn [map List.filter]. destruct (keep x); cbn; by rewrite <- IH.
Qed.

Section MoreEarlierFacts.

Import SetupM.

Variable host : Host.
Variable nuxt : NuxtOptions.

Lemma earlier_resolveSharp_extension (tc : TargetCompatibility) (c : Earlier.ModuleOptions) :
  extension (Earlier.defaults (config (Earlier.resolveSharp tc c)))
  = if negb (bindingsSharp (bindings tc))
       && negb (bool_decide (renderer (Earlier.defaults c) = Some "chromium"))
    then Some "png"
    else Js.orElse (extension (Earlier.defaults c)) (Some "jpg").
Proof.
  unfold Earlier.resolveSharp, when.
  cbn [bind getConfig setConfig SetupM.value SetupM.config SetupM.effects
         Earlier.setExtension Earlier.defaults renderer].
  destruct (negb _ && negb _); [|done].
  by destruct (_ && _).
Qed.

(** After the earlier [setup] the default extension is [png] whenever the
    target has no sharp binding and the renderer is not chromium; otherwise a
    configured extension is kept and [jpg] is the default. *)
Theorem earlier_default_extension_resolved (c : Earlier.ModuleOptions) :
  Earlier.enabled c = true -> ssr nuxt = true ->
  let tc := getPresetNitroPresetCompatibility host (resolveNitroPreset host (nitro nuxt)) in
  extension (Earlier.defaults (fst (Earlier.setup host nuxt c)))
  = if negb (bindingsSharp (bindings tc))
       && negb (bool_decide (renderer (Earlier.defaults c) = Some "chromium"))
    then Some "png"
    else if Js.truthy (extension (Earlier.defaults c))
    then extension (Earlier.defaults c)
    else Some "jpg".
Proof.
  intros He Hs tc.
  rewrite (earlier_setup_defaults host nuxt c He Hs). apply earlier_resolveSharp_extension.
Qed.

Lemma earlier_localFont_value (f : InputFontConfig) (c : Earlier.ModuleOptions) :
  value (Earlier.localFont f c)
  = if match f with
       | Shorthand _ => false
       | Descriptor d => Js.truthy (path d)
       end
    then Some f else None.
Proof. destruct f as [s|d]; [done|]. unfold Earlier.localFont. by destruct (Js.truthy _). Qed.

(** The font list after the earlier [setup]: on StackBlitz the configured list
    (the two Inter faces when it is empty); on every other target only the
    descriptors with a local path, in order, every shorthand string and every
    descriptor without path removed. *)
Theorem earlier_fonts_resolved (c : Earlier.ModuleOptions) :
  Earlier.enabled c = true -> ssr nuxt = true ->
  Earlier.fonts (fst (Earlier.setup host nuxt c))
  = if String.eqb (resolveNitroPreset host (nitro nuxt)) "stackblitz" then
      match Earlier.fonts c with
      | [] => [Shorthand "Inter:400"; Shorthand "Inter:700"]
      | _ :: _ => Earlier.fonts c
      end
    else
      List.filter
        (fun f => match f with
                  | Shorthand _ => false
                  | Descriptor d => Js.truthy (path d)
                  end)
        (Earlier.fonts c).
Proof.
  intros He Hs.
  rewrite (earlier_setup_proceeds host nuxt c He Hs). cbn [fst].
  rewrite earlier_resolveChromium_config.
  destruct (earlier_resolveSharp_config
              (getPresetNitroPresetCompatibility host (resolveNitroPreset host (nitro nuxt)))
              c) as (e & ->).
  unfold Earlier.resolveFonts, when.
  cbn [bind getConfig SetupM.value SetupM.config Earlier.setRuntimeChromium
         Earlier.setExtension Earlier.fonts].
  destruct (String.eqb _ _); cbn [negb andb].
  - destruct (Earlier.fonts c) eqn:Hf; cbn; by rewrite ?Hf.
  - cbn [bind setConfig SetupM.value SetupM.config Earlier.setFonts Earlier.fonts].
    match goal with
    | |- context [mapM Earlier.localFont ?fs ?c0] =>
        destruct (mapM_pure Earlier.localFont fs c0
                    (fun x => earlier_localFont_config x c0)) as (_ & -> & _)
    end.
    rewrite <- filterBoolean_map_if. f_equal. apply map_ext.
    intros f. apply earlier_localFont_value.
Qed.

Lemma earlier_setup_filter (f : Effect -> bool) (c : Earlier.ModuleOptions) :
  Earlier.enabled c = true -> ssr nuxt = true ->
  let p := resolveNitroPreset host (nitro nuxt) in
  let tc := getPresetNitroPresetCompatibility host p in
  let c1 := config (Earlier.resolveSharp tc c) in
  let c2 := config (Earlier.resolveChromium tc c1) in
  let c3 := config (Earlier.resolveFonts p c2) in
  List.filter f (snd (Earlier.setup host nuxt c))
  = (List.filter f [SetLoggerLevel (if Earlier.debug c || optDebug nuxt then 4 else 3)]
     ++ List.filter f (effects (Earlier.resolveSharp tc c))
     ++ List.filter f (effects (Earlier.resolveChromium tc c1))
     ++ List.filter f [InstallNuxtSiteConfig]
     ++ List.filter f (if hasNuxtModule host "@nuxt/content"
                       then [AddServerPlugin "./runtime/nitro/plugins/nuxt-content"] else [])
     ++ List.filter f (effects (Earlier.resolveFonts p c2))
     ++ List.filter f (effects (Earlier.addRoutes nuxt c3))
     ++ List.filter f (effects (Earlier.addRuntime c3))
     ++ List.filter f [Hook "modules:done"]
     ++ List.filter f (effects (Earlier.addBuildHandlers nuxt c3)))%list.
Proof.
  intros He Hs p tc c1 c2 c3. rewrite (earlier_setup_proceeds host nuxt c He Hs). cbn [snd].
  by rewrite !List.filter_app.
Qed.

(** Besides the nuxt-content plugin, the current [setup] adds the prerender
    plugin exactly when [build] is set; the earlier one exactly when prerender
    routes exist, links are crawled or the site is generated. *)
Theorem server_plugins_added (c : Current.ModuleOptions) (c0 : Earlier.ModuleOptions) :
  Current.enabled c = true -> Earlier.enabled c0 = true -> ssr nuxt = true ->
  let content :=
    if hasNuxtModule host "@nuxt/content"
    then [AddServerPlugin "./runtime/nitro/plugins/nuxt-content"] else [] in
  List.filter isServerPlugin (snd (Current.setup host nuxt c))
  = (content ++ if build nuxt
                then [AddServerPlugin "./runtime/nitro/plugins/prerender"] else [])%list
  /\ List.filter isServerPlugin (snd (Earlier.setup host nuxt c0))
     = (content ++ if Earlier.prerenders (nitro nuxt) || _generate nuxt
                   then [AddServerPlugin "./runtime/nitro/plugins/prerender.ts"] else [])%list.
Proof.
  intros He He0 Hs content. subst content. split.
  - rewrite (setup_filter host nuxt _ c He Hs).
    rewrite (filter_quiet _ (Current.resolveSharp _ _ _))
      by (unfold Current.resolveSharp, Current.mergeCompatibility; quiet).
    rewrite (filter_quiet _ (Current.resolveChromium _ _ _))
      by (unfold Current.resolveChromium, Current.mergeCompatibility; quiet).
    rewrite (filter_quiet _ (Current.resolveFonts _))
      by (unfold Current.resolveFonts, Current.stackblitzFont; quiet).
    rewrite (filter_quiet _ (Current.addRoutes _)) by (unfold Current.addRoutes; quiet).
    rewrite (filter_quiet _ (@Current.addRuntime)) by (unfold Current.addRuntime; quiet).
    unfold Current.addBuildHandlers, when.
    destruct (hasNuxtModule host _), (optDev nuxt), (_generate nuxt), (build nuxt);
      reflexivity.
  - rewrite (earlier_setup_filter _ c0 He0 Hs).
    rewrite (filter_quiet _ (Earlier.resolveSharp _))
      by (unfold Earlier.resolveSharp; quiet).
    rewrite (filter_quiet _ (Earlier.resolveChromium _))
      by (unfold Earlier.resolveChromium; quiet).
    rewrite (filter_quiet _ (Earlier.resolveFonts _))
      by (unfold Earlier.resolveFonts, Earlier.localFont; quiet).
    rewrite (filter_quiet _ (Earlier.addRoutes _)) by (unfold Earlier.addRoutes; quiet).
    rewrite (filter_quiet _ (@Earlier.addRuntime)) by (unfold Earlier.addRuntime; quiet).
    unfold Earlier.addBuildHandlers, when.
    destruct (hasNuxtModule host _), (optDev nuxt), (_generate nuxt), (build nuxt),
      (Earlier.prerenders (nitro nuxt)); reflexivity.
Qed.

End MoreEarlierFacts.

Lemma earlier_default_extension_resolved_witness :
  extension (Earlier.defaults
               (fst (Earlier.setup (Samples.host "cloudflare-pages" false false false false true)
                       (Samples.nuxt false) (Samples.earlierWithExtension "webp"))))
  = Some "png".
Proof.
  apply (earlier_default_extension_resolved
           (Samples.host "cloudflare-pages" false false false false true)
           (Samples.nuxt false) (Samples.earlierWithExtension "webp")).
  - reflexivity.
  - reflexivity.
Defined.

Lemma earlier_fonts_resolved_witness :
  let local := Descriptor {| name := "Mine"; weight := Some (WeightNumber 400);
                             path := Some "fonts/mine.ttf"; key := None |} in
  Earlier.fonts
    (fst (Earlier.setup (Samples.host "node-server" true true false false false)
            (Samples.nuxt false)
            (Earlier.setFonts [Shorthand "Roboto:400"; local]
               (Earlier.moduleDefaults false (Samples.nuxt false)))))
  = [local].
Proof.
  apply (earlier_fonts_resolved (Samples.host "node-server" true true false false false)
           (Samples.nuxt false)
           (Earlier.setFonts
              [Shorthand "Roboto:400";
               Descriptor {| name := "Mine"; weight := Some (WeightNumber 400);
                             path := Some "fonts/mine.ttf"; key := None |}]
              (Earlier.moduleDefaults false (Samples.nuxt false)))).
  - reflexivity.
  - reflexivity.
Defined.

Lemma server_plugins_added_witness :
  let h := Samples.host "node-server" true true false false false in
  List.filter isServerPlugin
    (snd (Current.setup h (Samples.nuxt false) (Current.moduleDefaults false)))
  = [AddServerPlugin "./runtime/nitro/plugins/prerender"]
  /\ List.filter isServerPlugin
       (snd (Earlier.setup h (Samples.nuxt false)
               (Earlier.moduleDefaults false (Samples.nuxt false))))
     = [].
Proof.
  apply (server_plugins_added (Samples.host "node-server" true true false false false)
           (Samples.nuxt false) (Current.moduleDefaults false)
           (Earlier.moduleDefaults false (Samples.nuxt false))).
  - reflexivity.
  - reflexivity.
  - reflexivity.
Defined.

(** ** The rest of [setup] *)

(** ** The cache key *)

Lemma append_inj_l (p v v' : string) : p ++ v = p ++ v' -> v = v'.
Proof.
  induction p as [|a p IH]; [done|].
  change (String a p ++ v) with (String a (p ++ v)).
  change (String a p ++ v') with (String a (p ++ v')).
  intros [= H]. by apply IH.
Qed.

(** The cache key is [false] exactly when [runtimeCacheStorage] is [false], and
    computing it throws exactly when [runtimeCacheStorage] is undefined: the
    driver is read before the [cacheEnabled] test is used. *)
Theorem cache_key_disabled_or_thrown (version : string) (s : Cache.RuntimeCacheStorage) :
  (Cache.baseCacheKey version s = Fulfilled None <-> s = Cache.Flag false)
  /\ ((exists e, Cache.baseCacheKey version s = Rejected e) <-> s = Cache.Undefined).
Proof.
  destruct s as [|[]|driver options]; unfold Cache.baseCacheKey; simpl; split; split;
    try done; try (intros [e He]; done); try (by eexists).
Qed.

(** Two configurations share a cache key only if they are of the same package
    version and both or neither use the default storage. *)
Theorem cache_key_separates_versions (v v' : string) (s s' : Cache.RuntimeCacheStorage)
    (k : string) :
  Cache.baseCacheKey v s = Fulfilled (Some k) ->
  Cache.baseCacheKey v' s' = Fulfilled (Some k) ->
  v = v'
  /\ (Cache.runtimeCacheStorage s = Fulfilled "default"
      <-> Cache.runtimeCacheStorage s' = Fulfilled "default").
Proof.
  unfold Cache.baseCacheKey.
  destruct (Cache.runtimeCacheStorage s) as [d|e] eqn:Hd; [|done].
  destruct (Cache.runtimeCacheStorage s') as [d'|e'] eqn:Hd'; [|done].
  destruct (negb (Cache.cacheEnabled s)); [done|].
  destruct (negb (Cache.cacheEnabled s')); [done|].
  destruct (String.eqb_spec d "default") as [->|Hn], (String.eqb_spec d' "default") as [->|Hn'];
    intros [= <-] [= H]; try apply append_inj_l in H; subst;
    (split; [done|]); split; intros ?; congruence.
Qed.

(** Of a storage record only the question whether its driver is [default]
    reaches the key: no other option (host, password) does, and all custom
    drivers share one key. *)
Theorem cache_key_ignores_driver_options (version d d' : string)
    (options options' : list (string * string)) :
  (d = "default" <-> d' = "default") ->
  Cache.baseCacheKey version (Cache.Storage d options)
  = Cache.baseCacheKey version (Cache.Storage d' options').
Proof.
  intros H. unfold Cache.baseCacheKey; simpl.
  destruct (String.eqb_spec d "default") as [Hd|Hd], (String.eqb_spec d' "default") as [Hd'|Hd'];
    try done; tauto.
Qed.

(** ** The colour preference *)

(** The colour preference handed to the runtime is [dark] or [light], and it is
    [dark] only when the color-mode module is installed with the preference
    [dark]; [system], an unknown or a missing preference give [light]. *)
Theorem color_preference_is_dark_or_light (host : Host) (preference : option string) :
  (colorPreference host preference = "dark" \/ colorPreference host preference = "light")
  /\ (colorPreference host preference = "dark"
      <-> hasNuxtModule host "@nuxtjs/color-mode" = true /\ preference = Some "dark").
Proof.
  unfold colorPreference.
  destruct (hasNuxtModule host "@nuxtjs/color-mode"); [|by split; [right|split; [|intros []]]].
  destruct preference as [s|]; [|by split; [right|split; [|intros [_ ?]]]].
  change (default "" (Some s)) with s.
  unfold Js.truthy, Js.includes. cbn [existsb].
  destruct (String.eqb_spec s "dark") as [->|Hd]; [by split; [left|]|].
  destruct (String.eqb_spec s "light") as [->|Hl]; [by split; [right|split; [|intros [_ ?]]]|].
  cbn [orb negb]. rewrite orb_true_r.
  split; [by right|]. split; [done|]. intros [_ [= ?]]. done.
Qed.

(** ** Component discovery *)

Section ComponentFacts.

Import Components.

Variable files : Files.

Lemma flag_loop {A : Type} (test : A -> bool) (xs : list A) (flag : bool) :
  fold_left (fun valid x => if test x then true else valid) xs flag
  = flag || existsb test xs.
Proof.
  revert flag. induction xs as [|x xs IH]; intros flag; simpl; [by rewrite orb_false_r|].
  rewrite IH. by destruct (test x), flag.
Qed.

Lemma valid_spec (componentDirs : list string) (c : Component) :
  valid files componentDirs c
  = existsb (fun dir => Js.startsWith dir (pascalName c)
                        || Js.startsWith dir (kebabName c)
                        || JsString.includes ("/" ++ dir ++ "/") (shortPath c))
      componentDirs
    || JsString.includes (resolve files "./runtime/components/Templates") (filePath c).
Proof.
  unfold valid. rewrite flag_loop. simpl.
  by destruct (JsString.includes _ (filePath c)), (existsb _ _).
Qed.

Lemma extend_spec (componentDirs : list string) (dev : bool)
    (ctx : list OgImageComponent.t) (components : list Component) :
  extend files componentDirs dev ctx components
  = (map (fun c => if kept files componentDirs c then markIsland c else c) components,
     map (entry files dev) (List.filter (kept files componentDirs) components)).
Proof.
  unfold extend.
  assert (H : forall seen acc,
             fold_left
               (fun acc component =>
                  let '(seen, ctx) := acc in
                  let '(component', pushed) := visit files componentDirs dev component in
                  ((seen ++ [component'])%list, (ctx ++ pushed)%list))
               components (seen, acc)
             = ((seen ++ map (fun c => if kept files componentDirs c
                                      then markIsland c else c) components)%list,
                (acc ++ map (entry files dev)
                          (List.filter (kept files componentDirs) components))%list)).
  { match goal with |- context [fold_left ?f _ _] => set (F := f) end.
    induction components as [|c cs IH]; intros seen acc; cbn [fold_left map List.filter].
    - by rewrite !app_nil_r.
    - assert (HF : F (seen, acc) c
                   = if kept files componentDirs c
                     then ((seen ++ [markIsland c])%list, (acc ++ [entry files dev c])%list)
                     else ((seen ++ [c])%list, acc)).
      { unfold F, visit. destruct (kept files componentDirs c); [done|].
        by rewrite app_nil_r. }
      rewrite HF. destruct (kept files componentDirs c); rewrite IH; cbn [map];
        by rewrite <- !app_assoc. }
  apply (H [] []).
Qed.

(** The hook records, in order and starting from an empty list whatever was
    recorded before, the components that exist on disk and either match a
    component directory (by Pascal name prefix, kebab name prefix or a
    directory of that name in the short path) or lie under the module's
    templates; these become server islands, all others are left as they
    were. *)
Theorem components_recorded (componentDirs : list string) (dev : bool)
    (ctx : list OgImageComponent.t) (components : list Component) :
  let result := extend files componentDirs dev ctx components in
  snd result = map (entry files dev) (List.filter (kept files componentDirs) components)
  /\ Forall2 (fun c c' => c' = if kept files componentDirs c then markIsland c else c)
       components (fst result)
  /\ forall c,
       kept files componentDirs c = true
       <-> existsSync files (filePath c) = true
           /\ ((exists dir, In dir componentDirs
                  /\ (Js.startsWith dir (pascalName c) = true
                      \/ Js.startsWith dir (kebabName c) = true
                      \/ JsString.includes ("/" ++ dir ++ "/") (shortPath c) = true))
               \/ JsString.includes (resolve files "./runtime/components/Templates")
                    (filePath c) = true).
Proof.
  intros result. subst result. rewrite extend_spec. cbn [fst snd].
  split; [done|]. split.
  - induction components as [|c cs IH]; constructor; [done|exact IH].
  - intros c. unfold kept. rewrite valid_spec, andb_true_iff, orb_true_iff, existsb_exists.
    split.
    + intros [[(dir & Hin & H)|H] He]; (split; [done|]); [left|by right].
      exists dir. split; [done|].
      apply orb_true_iff in H as [H|H]; [apply orb_true_iff in H as [H|H]|]; auto.
    + intros [He [(dir & Hin & H)|H]]; (split; [|done]); [left|by right].
      exists dir. split; [done|].
      destruct H as [-> | [-> | ->]]; by rewrite ?orb_true_r.
Qed.

(** Outside dev mode no recorded component carries a file path; in dev mode it
    is the path of a component that exists on disk. *)
Theorem recorded_paths (componentDirs : list string) (dev : bool)
    (ctx : list OgImageComponent.t) (components : list Component)
    (e : OgImageComponent.t) :
  In e (snd (extend files componentDirs dev ctx components)) ->
  if dev then
    exists c, In c components /\ existsSync files (filePath c) = true
              /\ OgImageComponent.path e = Some (filePath c)
  else OgImageComponent.path e = None.
Proof.
  rewrite extend_spec. cbn [snd].
  intros (c & <- & [Hin Hk]%filter_In)%in_map_iff.
  destruct dev; [|done]. exists c. split; [done|]. split; [|done].
  unfold kept in Hk. by apply andb_true_iff in Hk as [_ ?].
Qed.

Lemma prefix_app (a b s : string) :
  String.prefix (a ++ b) s = true -> String.prefix a s = true.
Proof.
  revert s. induction a as [|x a IH]; intros s; [by destruct s|].
  change (String x a ++ b) with (String x (a ++ b)).
  destruct s as [|y s]; simpl; [done|].
  destruct (Ascii.ascii_dec x y); [apply IH|done].
Qed.

Lemma includes_app (a b s : string) :
  JsString.includes (a ++ b) s = true -> JsString.includes a s = true.
Proof.
  induction s as [|y s IH]; cbn [JsString.includes].
  - rewrite !orb_false_r. apply prefix_app.
  - intros [H|H]%orb_true_iff; apply orb_true_iff; [left; by eapply prefix_app|right; auto].
Qed.

(** A component of category community is valid whatever [componentDirs]
    holds, also when it is empty: if its file exists it is recorded. *)
Theorem community_templates_always_recorded (componentDirs : list string) (dev : bool)
    (c : Component) :
  resolve files "./runtime/components/Templates/Community"
  = resolve files "./runtime/components/Templates" ++ "/Community" ->
  OgImageComponent.category (entry files dev c) = Community ->
  valid files componentDirs c = true
  /\ (existsSync files (filePath c) = true ->
      forall ctx components, In c components ->
        In (entry files dev c) (snd (extend files componentDirs dev ctx components))).
Proof.
  intros Hres Hcat. unfold entry in Hcat. cbn [OgImageComponent.category] in Hcat.
  destruct (JsString.includes _ (filePath c)) eqn:Hinc; [|done].
  rewrite Hres in Hinc. apply includes_app in Hinc.
  assert (Hv : valid files componentDirs c = true).
  { rewrite valid_spec, Hinc. apply orb_true_r. }
  split; [done|]. intros He ctx components Hin.
  rewrite extend_spec. cbn [snd]. apply in_map, filter_In. split; [done|].
  unfold kept. by rewrite Hv, He.
Qed.

(** Adding component directories never removes a recorded component. *)
Theorem more_component_dirs_record_more (dirs dirs' : list string) (dev : bool)
    (ctx ctx' : list OgImageComponent.t) (components : list Component)
    (e : OgImageComponent.t) :
  (forall dir, In dir dirs -> In dir dirs') ->
  In e (snd (extend files dirs dev ctx components)) ->
  In e (snd (extend files dirs' dev ctx' components)).
Proof.
  intros Hincl. rewrite !extend_spec. cbn [snd].
  intros (c & <- & [Hin Hk]%filter_In)%in_map_iff.
  apply in_map, filter_In. split; [done|].
  unfold kept in *. apply andb_true_iff in Hk as [Hv He]. rewrite He, andb_true_r.
  rewrite valid_spec in *. apply orb_true_iff in Hv as [Hv|Hv]; apply orb_true_iff; [left|by right].
  apply existsb_exists in Hv as (dir & Hd & H). apply existsb_exists. eauto.
Qed.

Lemma prefix_append (p r : string) : String.prefix p (p ++ r) = true.
Proof.
  induction p as [|x p IH].
  - change ("" ++ r) with r. by destruct r.
  - change (String x p ++ r) with (String x (p ++ r)). simpl.
    by destruct (Ascii.ascii_dec x x).
Qed.

Lemma replace_unfold (pattern replacement s : string) :
  JsString.replace pattern replacement s
  = if String.prefix pattern s
    then replacement ++ JsString.slice (String.length pattern) s
    else match s with
         | EmptyString => EmptyString
         | String c rest => String c (JsString.replace pattern replacement rest)
         end.
Proof. by destruct s. Qed.

Lemma replace_prefix (pattern replacement rest : string) :
  JsString.replace pattern replacement (pattern ++ rest) = replacement ++ rest.
Proof.
  assert (Hslice : forall p, JsString.slice (String.length p) (p ++ rest) = rest).
  { induction p as [|x p IH]; [by destruct rest|exact IH]. }
  by rewrite replace_unfold, prefix_append, Hslice.
Qed.

Lemma replace_credits (rest : string) :
  JsString.replace "* @credits" "" (" * @credits" ++ rest) = " " ++ rest.
Proof.
  change (" * @credits" ++ rest) with (String " " ("* @credits" ++ rest)).
  cbn [JsString.replace].
  change (String.prefix "* @credits" (String " " ("* @credits" ++ rest))) with false.
  cbn iota. by rewrite replace_prefix.
Qed.

Lemma startsWith_credits (rest : string) :
  Js.startsWith " * @credits" (" * @credits" ++ rest) = true.
Proof. apply prefix_append. Qed.

(** The credits are what follows [* @credits] on the first line of the file
    that starts with [ * @credits], trimmed. *)
Theorem credits_of_first_marked_line (componentFile : string)
    (before after : list string) (rest : string) :
  Js.split JsString.lineFeed componentFile
  = (before ++ (" * @credits" ++ rest)%string :: after)%list ->
  Forall (fun line => Js.startsWith " * @credits" line = false) before ->
  credits files componentFile = Some (trim files (" " ++ rest)).
Proof.
  intros Hsplit Hbefore. unfold credits. rewrite Hsplit. clear Hsplit.
  induction Hbefore as [|line before Hline _ IH]; cbn [app List.find].
  - rewrite startsWith_credits. cbn [fmap option_fmap option_map].
    by rewrite replace_credits.
  - rewrite Hline. exact IH.
Qed.

(** A file without such a line has no credits. *)
Theorem no_credits_without_marked_line (componentFile : string) :
  Forall (fun line => Js.startsWith " * @credits" line = false)
    (Js.split JsString.lineFeed componentFile) ->
  credits files componentFile = None.
Proof.
  intros H. unfold credits.
  induction H as [|line lines Hline _ IH]; cbn [List.find]; [done|]. by rewrite Hline.
Qed.

End ComponentFacts.

Lemma cache_key_separates_versions_witness :
  "3.0.0" = "3.0.0"
  /\ (Cache.runtimeCacheStorage (Cache.Flag true) = Fulfilled "default"
      <-> Cache.runtimeCacheStorage (Cache.Storage "default" [("base", "./cache")])
          = Fulfilled "default").
Proof.
  apply (cache_key_separates_versions "3.0.0" "3.0.0" (Cache.Flag true)
           (Cache.Storage "default" [("base", "./cache")]) "/cache/nuxt-og-image@3.0.0").
  - reflexivity.
  - reflexivity.
Defined.

Lemma cache_key_ignores_driver_options_witness :
  Cache.baseCacheKey "3.0.0" (Cache.Storage "redis" [("password", "secret")])
  = Cache.baseCacheKey "3.0.0" (Cache.Storage "fs" []).
Proof.
  apply (cache_key_ignores_driver_options "3.0.0" "redis" "fs" [("password", "secret")] []).
  split; discriminate.
Defined.

Lemma recorded_paths_witness :
  Components.OgImageComponent.path
    (Components.entry MoreSamples.files false MoreSamples.banner) = None.
Proof.
  apply (recorded_paths MoreSamples.files ["OgImage"; "OgImageTemplate"] false []
           [MoreSamples.footer; MoreSamples.banner]
           (Components.entry MoreSamples.files false MoreSamples.banner)).
  vm_compute. by left.
Defined.

Lemma community_templates_always_recorded_witness :
  Components.valid MoreSamples.files [] MoreSamples.communityTemplate = true
  /\ (Components.existsSync MoreSamples.files
        (Components.filePath MoreSamples.communityTemplate) = true ->
      forall ctx components, In MoreSamples.communityTemplate components ->
        In (Components.entry MoreSamples.files false MoreSamples.communityTemplate)
           (snd (Components.extend MoreSamples.files [] false ctx components))).
Proof.
  apply (community_templates_always_recorded MoreSamples.files [] false
           MoreSamples.communityTemplate).
  - reflexivity.
  - reflexivity.
Defined.

Lemma more_component_dirs_record_more_witness :
  In (Components.entry MoreSamples.files false MoreSamples.banner)
     (snd (Components.extend MoreSamples.files ["OgImage"; "App"] false []
             [MoreSamples.footer; MoreSamples.banner])).
Proof.
  apply (more_component_dirs_record_more MoreSamples.files ["OgImage"] ["OgImage"; "App"]
           false [] [] [MoreSamples.footer; MoreSamples.banner]
           (Components.entry MoreSamples.files false MoreSamples.banner)).
  - intros dir [<-|[]]. simpl. by left.
  - vm_compute. by left.
Defined.

Lemma credits_of_first_marked_line_witness :
  Components.credits MoreSamples.files
    (Components.readFileSync MoreSamples.files "/app/components/OgImage/Banner.vue")
  = Some "Jane Doe".
Proof.
  apply (credits_of_first_marked_line MoreSamples.files
           (Components.readFileSync MoreSamples.files "/app/components/OgImage/Banner.vue")
           ["<!--"] ["-->"] " Jane Doe").
  - reflexivity.
  - repeat constructor.
Defined.

Lemma no_credits_without_marked_line_witness :
  Components.credits MoreSamples.files "<template>
  <div />
</template>" = None.
Proof.
  apply (no_credits_without_marked_line MoreSamples.files).
  vm_compute. repeat constructor.
Defined.
